(** * Transformer-from-scratch: the forward computation of [transformer.ipynb]

    A shallow embedding of the notebook's classes ([PositionalEncoding],
    [MultiHeadAttention], [FeedForward], [EncoderLayer], [DecoderLayer]) and of
    the PyTorch operations they call.

    - Python exceptions are an error type [Py.exn]; every operation that can
      raise returns a [Py.result].
    - Python [int]s are [Z]; tensor sizes are [nat].
    - A tensor is its shape together with its entries, read by index.  The
      entries of a float tensor are real numbers, the values the float32
      operations approximate: rounding, overflow to infinity and NaN are not
      modelled.  Shapes and exceptions do not depend on the entries; a
      statement about entries holds of the float32 computation where that
      stays finite, and up to rounding.
    - Randomness (dropout in training mode) is an explicit stream of uniform
      draws threaded through the calls. *)

From Stdlib Require Import String ZArith Reals Lia Lra Bool Arith List.
Import ListNotations.
Local Open Scope string_scope.
Local Open Scope nat_scope.

(* ------------------------------------------------------------------ *)
(** ** Python: exceptions, name resolution *)

Module Py.

Inductive exn : Type :=
| NameError (name : string)
| AttributeError (name : string)
| AssertionError
| ZeroDivisionError
| TypeError
| ValueError
| IndexError
| RuntimeError (what : string).

Inductive result (A : Type) : Type :=
| Ok (a : A)
| Raise (e : exn).

Arguments Ok {A} a.
Arguments Raise {A} e.

Definition bind {A B : Type} (m : result A) (k : A -> result B) : result B :=
  match m with
  | Ok a => k a
  | Raise e => Raise e
  end.

Definition returns {A : Type} (m : result A) : Prop := exists a, m = Ok a.

Definition is_ok {A : Type} (m : result A) : bool :=
  match m with
  | Ok _ => true
  | Raise _ => false
  end.

(** Objects a name of the notebook can be bound to, as far as the constructors
    need them: an integer argument, the instance under construction, or some
    module-level object (an imported module, a class). *)
Inductive obj : Type :=
| Int (z : Z)
| Self
| Global (name : string).

Definition scope : Type := list (string * obj).

Fixpoint lookup (name : string) (s : scope) : option obj :=
  match s with
  | [] => None
  | (n, v) :: rest => if String.eqb n name then Some v else lookup name rest
  end.

(** The names bound at module level by the notebook's cells: its imports and
    its classes.  ([from typing import *] and the builtins add further names;
    none of them is spelled like a name looked up below.) *)
Definition notebook_globals : list string :=
  [ "os"; "time"; "math"; "copy"; "spacy"; "GPUtil"; "pd"; "chain";
    "torch"; "nn"; "optim"; "F"; "dist"; "mp"; "LambdaLR"; "DDP";
    "DataLoader"; "Dataset"; "alt"; "Chart";
    "PositionalEncoding"; "MultiHeadAttention"; "FeedForward";
    "EncoderLayer"; "DecoderLayer"; "Transformer" ].

(** Reading a bare name inside a method: the local scope first, then the
    module-level names; [NameError] when neither binds it. *)
Definition load_name (locals : scope) (name : string) : result obj :=
  match lookup name locals with
  | Some v => Ok v
  | None =>
      if existsb (String.eqb name) notebook_globals
      then Ok (Global name)
      else Raise (NameError name)
  end.

Definition as_int (o : obj) : result Z :=
  match o with
  | Int z => Ok z
  | _ => Raise TypeError
  end.

(** [a // b] on integers: floor division, [ZeroDivisionError] when [b = 0]. *)
Definition floordiv (a b : Z) : result Z :=
  if (b =? 0)%Z then Raise ZeroDivisionError else Ok (a / b)%Z.

(** [assert c] *)
Definition assert (c : bool) : result unit :=
  if c then Ok tt else Raise AssertionError.

End Py.

Import Py.

Notation "x <- m ;; k" := (bind m (fun x => k))
  (at level 61, m at next level, right associativity).
Notation "' p <- m ;; k" := (bind m (fun p => k))
  (at level 61, p pattern, m at next level, right associativity).

(* ------------------------------------------------------------------ *)
(** ** PyTorch: tensors and the operations the notebook calls *)

Module Torch.

(** A tensor: its sizes and its entries.  [item t idx] is meaningful for the
    indices within [shape t]. *)
Record tensor (A : Type) : Type := Tensor {
  shape : list nat;
  item : list nat -> A
}.

Arguments Tensor {A} shape item.
Arguments shape {A} t.
Arguments item {A} t idx.

Definition numel (s : list nat) : nat := fold_right Nat.mul 1 s.

(** Row-major position of an index, and back. *)
Fixpoint ravel (s idx : list nat) : nat :=
  match s, idx with
  | _ :: s', i :: idx' => i * numel s' + ravel s' idx'
  | _, _ => 0
  end.

Fixpoint unravel (s : list nat) (n : nat) : list nat :=
  match s with
  | [] => []
  | _ :: s' => (n / numel s') :: unravel s' (n mod numel s')
  end.

Fixpoint set_nth {A : Type} (n : nat) (v : A) (l : list A) : list A :=
  match l, n with
  | [], _ => []
  | _ :: t, O => v :: t
  | h :: t, S k => h :: set_nth k v t
  end.

Definition swap {A : Type} (i j : nat) (l : list A) : list A :=
  match nth_error l i, nth_error l j with
  | Some a, Some b => set_nth j a (set_nth i b l)
  | _, _ => l
  end.

(** Sum of [f 0 .. f (n-1)]. *)
Fixpoint rsum (f : nat -> R) (n : nat) : R :=
  match n with
  | O => 0%R
  | S k => (rsum f k + f k)%R
  end.

(** A dimension argument, possibly negative, against a rank. *)
Definition wrap_dim (rank : nat) (d : Z) : result nat :=
  if ((- Z.of_nat rank <=? d) && (d <? Z.of_nat rank))%Z
  then Ok (Z.to_nat (d mod Z.of_nat rank))
  else Raise IndexError.

(** [t.size(d)] *)
Definition size {A : Type} (t : tensor A) (d : Z) : result nat :=
  i <- wrap_dim (length (shape t)) d ;;
  Ok (nth i (shape t) 0).

(** [t.transpose(d0, d1)] *)
Definition transpose {A : Type} (t : tensor A) (d0 d1 : Z) : result (tensor A) :=
  i <- wrap_dim (length (shape t)) d0 ;;
  j <- wrap_dim (length (shape t)) d1 ;;
  Ok (Tensor (swap i j (shape t)) (fun idx => item t (swap i j idx))).

(** [t.contiguous()]: the same entries, laid out in index order. *)
Definition contiguous {A : Type} (t : tensor A) : tensor A := t.

(** [t.view(dims...)] of a contiguous tensor; one size may be [-1], to be
    inferred from the number of elements. *)
Definition view_item {A : Type} (t : tensor A) (s : list nat) (idx : list nat) : A :=
  item t (unravel (shape t) (ravel s idx)).

Definition view {A : Type} (t : tensor A) (dims : list Z) : result (tensor A) :=
  if existsb (fun d => d <? -1)%Z dims
  then Raise (RuntimeError "view: invalid shape dimension")
  else
    let holes := count_occ Z.eq_dec dims (-1)%Z in
    if 1 <? holes
    then Raise (RuntimeError "view: only one dimension can be inferred")
    else
      let newsize := numel (map Z.to_nat (filter (fun d => 0 <=? d)%Z dims)) in
      let n := numel (shape t) in
      if (n =? newsize) || ((holes =? 1) && (0 <? newsize) && (n mod newsize =? 0))
      then
        if (holes =? 1) && (newsize =? 0)
        then Raise (RuntimeError "view: unspecified dimension is ambiguous")
        else
          let s := map (fun d => if (d =? -1)%Z then n / newsize else Z.to_nat d) dims in
          Ok (Tensor s (view_item t s))
      else Raise (RuntimeError "view: shape is invalid for input size").

(** Broadcasting of two shapes, aligned at the last dimension. *)
Fixpoint broadcast_rev (a b : list nat) : result (list nat) :=
  match a, b with
  | [], _ => Ok b
  | _, [] => Ok a
  | x :: a', y :: b' =>
      r <- broadcast_rev a' b' ;;
      if x =? y then Ok (x :: r)
      else if x =? 1 then Ok (y :: r)
      else if y =? 1 then Ok (x :: r)
      else Raise (RuntimeError "broadcast")
  end.

Definition broadcast_shapes (a b : list nat) : result (list nat) :=
  r <- broadcast_rev (rev a) (rev b) ;;
  Ok (rev r).

(** The index into an operand of shape [s] for an index of the broadcast
    result: the trailing positions, with 0 where the operand has size 1. *)
Fixpoint clamp (s idx : list nat) : list nat :=
  match s, idx with
  | d :: s', i :: idx' => (if d =? 1 then 0 else i) :: clamp s' idx'
  | _, _ => []
  end.

Definition bcast (s idx : list nat) : list nat :=
  clamp s (skipn (length idx - length s) idx).

(** Elementwise binary operation with broadcasting ([a + b], [a * b]). *)
Definition zip_item {A B C : Type} (f : A -> B -> C) (a : tensor A) (b : tensor B)
  (idx : list nat) : C :=
  f (item a (bcast (shape a) idx)) (item b (bcast (shape b) idx)).

Definition zip_with {A B C : Type} (f : A -> B -> C) (a : tensor A) (b : tensor B)
  : result (tensor C) :=
  s <- broadcast_shapes (shape a) (shape b) ;;
  Ok (Tensor s (zip_item f a b)).

Definition add (a b : tensor R) : result (tensor R) := zip_with Rplus a b.
Definition mul (a b : tensor R) : result (tensor R) := zip_with Rmult a b.

(** Elementwise unary operation ([torch.exp], [torch.sin], [t / c], ...). *)
Definition map_tensor {A B : Type} (f : A -> B) (t : tensor A) : tensor B :=
  Tensor (shape t) (fun idx => f (item t idx)).

(** [F.relu]: [max(0, x)] at every entry. *)
Definition relu (t : tensor R) : tensor R := map_tensor (Rmax 0) t.

(** [mask == 0] for an integer (or boolean) mask. *)
Definition eq_zero (mask : tensor Z) : tensor bool :=
  map_tensor (fun z => (z =? 0)%Z) mask.

(** [t.masked_fill(m, v)], out of place: [t] and [m] are broadcast with each
    other, so the result can be larger than [t]. *)
Definition masked_fill_item (t : tensor R) (m : tensor bool) (v : R) (idx : list nat) : R :=
  if item m (bcast (shape m) idx) then v else item t (bcast (shape t) idx).

Definition masked_fill (t : tensor R) (m : tensor bool) (v : R) : result (tensor R) :=
  s <- broadcast_shapes (shape t) (shape m) ;;
  Ok (Tensor s (masked_fill_item t m v)).

(** [F.softmax(t, dim=-1)], over the reals: the normalized exponentials of
    the entries along the last dimension. *)
Definition softmax_item (t : tensor R) (idx : list nat) : R :=
  (exp (item t idx) /
   rsum (fun k => exp (item t (removelast idx ++ [k]))) (last (shape t) 1%nat))%R.

Definition softmax (t : tensor R) : tensor R :=
  Tensor (shape t) (softmax_item t).

(** [torch.matmul(a, b)] for operands of rank at least 2 (both operands are
    4-dimensional wherever the notebook multiplies): the last two dimensions
    are multiplied as matrices, the leading ones are broadcast. *)
Definition matmul_item (a b : tensor R) (nbatch inner : nat) (idx : list nat) : R :=
  let batch := firstn nbatch idx in
  let i := nth nbatch idx 0 in
  let j := nth (S nbatch) idx 0 in
  rsum (fun k =>
          item a (bcast (removelast (removelast (shape a))) batch ++ [i; k]) *
          item b (bcast (removelast (removelast (shape b))) batch ++ [k; j]))%R
       inner.

Definition matmul (a b : tensor R) : result (tensor R) :=
  match rev (shape a), rev (shape b) with
  | m :: n :: ra, p :: m' :: rb =>
      if m =? m'
      then
        r <- broadcast_rev ra rb ;;
        Ok (Tensor (rev r ++ [n; p]) (matmul_item a b (length r) m))
      else Raise (RuntimeError "matmul")
  | _, _ => Raise (RuntimeError "matmul: rank")
  end.

(** [torch.zeros(dims...)] *)
Definition zeros (dims : list Z) : result (tensor R) :=
  if existsb (fun d => d <? 0)%Z dims
  then Raise (RuntimeError "zeros: negative dimension")
  else Ok (Tensor (map Z.to_nat dims) (fun _ => 0%R)).

(** [torch.arange(0, stop, step)] with [step > 0], as numbers. *)
Definition arange (stop step : Z) : result (tensor R) :=
  if (stop <? 0)%Z
  then Raise (RuntimeError "arange: bounds inconsistent with step sign")
  else Ok (Tensor [Z.to_nat ((stop + step - 1) / step)]
                  (fun idx => IZR (Z.of_nat (hd 0 idx) * step))).

(** [t.unsqueeze(d)] for [0 <= d <= rank]. *)
Fixpoint insert_at {A : Type} (n : nat) (v : A) (l : list A) : list A :=
  match n, l with
  | O, _ => v :: l
  | S k, h :: t => h :: insert_at k v t
  | S _, [] => [v]
  end.

Fixpoint remove_at {A : Type} (n : nat) (l : list A) : list A :=
  match n, l with
  | _, [] => []
  | O, _ :: t => t
  | S k, h :: t => h :: remove_at k t
  end.

Definition unsqueeze {A : Type} (t : tensor A) (d : nat) : result (tensor A) :=
  if d <=? length (shape t)
  then Ok (Tensor (insert_at d 1 (shape t)) (fun idx => item t (remove_at d idx)))
  else Raise IndexError.

(** [t[:, start::2] = v] on a matrix [t]: [v] must broadcast to the selected
    columns. *)
Definition assign_cols_item (t v : tensor R) (start : nat) (idx : list nat) : R :=
  let r := nth 0 idx 0 in
  let c := nth 1 idx 0 in
  if (start <=? c) && ((c - start) mod 2 =? 0)
  then item v (bcast (shape v) [r; (c - start) / 2])
  else item t idx.

Definition assign_cols (t : tensor R) (start : nat) (v : tensor R) : result (tensor R) :=
  match shape t with
  | [rows; cols] =>
      let target := [rows; (cols - start + 1) / 2] in
      s <- broadcast_shapes target (shape v) ;;
      if list_eq_dec Nat.eq_dec s target
      then Ok (Tensor (shape t) (assign_cols_item t v start))
      else Raise (RuntimeError "setitem: shape mismatch")
  | _ => Raise IndexError
  end.

(** [t[:, :stop]] on a tensor of rank at least 2: a slice never raises, its
    end is clipped to the size. *)
Definition slice_dim1 {A : Type} (t : tensor A) (stop : nat) : result (tensor A) :=
  match shape t with
  | d0 :: d1 :: rest => Ok (Tensor (d0 :: Nat.min stop d1 :: rest) (item t))
  | _ => Raise IndexError
  end.

(** [t.detach()]: the same values, outside the gradient graph. *)
Definition detach {A : Type} (t : tensor A) : tensor A := t.

End Torch.

Import Torch.

(* ------------------------------------------------------------------ *)
(** ** torch.nn: the library layers the notebook instantiates *)

(** The source of randomness: a stream of uniform draws from [0, 1). *)
Definition rng : Type := nat -> R.

(** Initial parameter values are an external concern: a constructor receives
    them from an initializer, by attribute name. *)
Definition initializer : Type := string -> (nat -> nat -> R) * (nat -> R).

(** [nn.Linear(in_features, out_features)]: [y = x W^T + b] on the last
    dimension. *)
Module Linear.

Record t : Type := mk {
  in_features : nat;
  out_features : nat;
  weight : nat -> nat -> R;
  bias : nat -> R
}.

Definition __init__ (in_features out_features : Z)
  (params : (nat -> nat -> R) * (nat -> R)) : result t :=
  if ((in_features <? 0) || (out_features <? 0))%Z
  then Raise (RuntimeError "linear: negative dimension")
  else Ok (mk (Z.to_nat in_features) (Z.to_nat out_features) (fst params) (snd params)).

Definition forward_item (self : t) (x : tensor R) (idx : list nat) : R :=
  (rsum (fun i => item x (removelast idx ++ [i]) * weight self (last idx 0%nat) i)
        (in_features self)
   + bias self (last idx 0%nat))%R.

Definition forward (self : t) (x : tensor R) : result (tensor R) :=
  match shape x with
  | [] => Raise (RuntimeError "linear: shapes cannot be multiplied")
  | _ :: _ =>
      if last (shape x) 0 =? in_features self
      then Ok (Tensor (removelast (shape x) ++ [out_features self]) (forward_item self x))
      else Raise (RuntimeError "linear: shapes cannot be multiplied")
  end.

End Linear.

(** [nn.Dropout(p)]: in training mode every entry is kept with probability
    [1 - p] and scaled by [1 / (1 - p)]; in evaluation mode the identity. *)
Module Dropout.

Record t : Type := mk {
  p : R;
  training : bool
}.

Definition __init__ (p : R) : result t :=
  if Rlt_dec p 0 then Raise ValueError
  else if Rlt_dec 1 p then Raise ValueError
  else Ok (mk p true).

Definition forward_item (self : t) (x : tensor R) (g : rng) (idx : list nat) : R :=
  if Rlt_dec (g (ravel (shape x) idx)) (1 - p self)
  then (item x idx / (1 - p self))%R
  else 0%R.

Definition forward (self : t) (x : tensor R) (g : rng) : tensor R * rng :=
  if training self
  then (Tensor (shape x) (forward_item self x g), fun i => g (numel (shape x) + i))
  else (x, g).

End Dropout.

(** [nn.LayerNorm(d)]: every vector along the last dimension is shifted and
    scaled to mean 0 and variance 1, then scaled by [gamma] and shifted by
    [beta]. *)
Module LayerNorm.

Record t : Type := mk {
  normalized_shape : nat;
  eps : R;
  gamma : nat -> R;
  beta : nat -> R
}.

Definition __init__ (d : Z) : result t :=
  if (d <? 0)%Z
  then Raise (RuntimeError "layer_norm: negative dimension")
  else Ok (mk (Z.to_nat d) (1 / 100000)%R (fun _ => 1%R) (fun _ => 0%R)).

Definition forward_item (self : t) (x : tensor R) (idx : list nat) : R :=
  let n := normalized_shape self in
  let row := fun k => item x (removelast idx ++ [k]) in
  let mean := (rsum row n / INR n)%R in
  let var := (rsum (fun k => (row k - mean) * (row k - mean)) n / INR n)%R in
  ((item x idx - mean) / sqrt (var + eps self) * gamma self (last idx 0%nat)
   + beta self (last idx 0%nat))%R.

Definition forward (self : t) (x : tensor R) : result (tensor R) :=
  match shape x with
  | [] => Raise (RuntimeError "layer_norm: shape mismatch")
  | _ :: _ =>
      if last (shape x) 0 =? normalized_shape self
      then Ok (Tensor (shape x) (forward_item self x))
      else Raise (RuntimeError "layer_norm: shape mismatch")
  end.

End LayerNorm.

(** [nn.Embedding(num_embeddings, embedding_dim)]: a table with one vector
    per token id. *)
Module Embedding.

Record t : Type := mk {
  num_embeddings : nat;
  embedding_dim : nat;
  weight : nat -> nat -> R
}.

Definition __init__ (num_embeddings embedding_dim : Z) (w : nat -> nat -> R) : result t :=
  if ((num_embeddings <? 0) || (embedding_dim <? 0))%Z
  then Raise (RuntimeError "embedding: negative dimension")
  else Ok (mk (Z.to_nat num_embeddings) (Z.to_nat embedding_dim) w).

End Embedding.

(* ------------------------------------------------------------------ *)
(** ** The notebook's classes *)

Definition load_int (locals : scope) (name : string) : result Z :=
  o <- load_name locals name ;;
  as_int o.

Module PositionalEncoding.

Record t : Type := mk {
  dropout : Dropout.t;
  pe : tensor R
}.

Definition default_max_len : Z := 5000.

Definition __init__ (d_model : Z) (dropout : R) (max_len : Z) : result t :=
  drop <- Dropout.__init__ dropout ;;
  pe <- zeros [max_len; d_model] ;;
  steps <- arange max_len 1 ;;
  position <- unsqueeze steps 1 ;;
  evens <- arange d_model 2 ;;
  factor <- (if (d_model =? 0)%Z then Raise ZeroDivisionError
             else Ok (- ln 10000 / IZR d_model)%R) ;;
  let div_term := map_tensor (fun e => (e * factor)%R) (map_tensor exp evens) in
  angle <- mul position div_term ;;
  pe <- assign_cols pe 0 (map_tensor sin angle) ;;
  angle' <- mul position div_term ;;
  pe <- assign_cols pe 1 (map_tensor cos angle') ;;
  pe <- unsqueeze pe 0 ;;
  Ok (mk drop pe).

Definition forward (self : t) (x : tensor R) (g : rng) : result (tensor R * rng) :=
  len <- size x 1 ;;
  rows <- slice_dim1 (pe self) len ;;
  y <- add x (detach rows) ;;
  Ok (Dropout.forward (dropout self) y g).

End PositionalEncoding.

Module MultiHeadAttention.

Record t : Type := mk {
  d_model : Z;
  num_heads : Z;
  head_dim : Z;
  W_q : Linear.t;
  W_k : Linear.t;
  W_v : Linear.t;
  W_o : Linear.t
}.

Definition __init__ (d_model num_heads : Z) (init : initializer) : result t :=
  let locals := [("self", Self); ("d_model", Int d_model); ("num_heads", Int num_heads)] in
  self_d_model <- load_int locals "d_model" ;;
  self_num_heads <- load_int locals "num_heads" ;;
  a <- load_int locals "d_model" ;;
  b <- load_int locals "num_heads" ;;
  self_head_dim <- floordiv a b ;;
  hd <- load_int locals "head_dim" ;;
  nh <- load_int locals "num_heads" ;;
  dm <- load_int locals "d_model" ;;
  _ <- assert (hd * nh =? dm)%Z ;;
  i <- load_int locals "d_model" ;;
  o <- load_int locals "d_model" ;;
  W_q <- Linear.__init__ i o (init "W_q") ;;
  i <- load_int locals "d_model" ;;
  o <- load_int locals "d_model" ;;
  W_k <- Linear.__init__ i o (init "W_k") ;;
  i <- load_int locals "d_model" ;;
  o <- load_int locals "d_model" ;;
  W_v <- Linear.__init__ i o (init "W_v") ;;
  i <- load_int locals "d_model" ;;
  o <- load_int locals "d_model" ;;
  W_o <- Linear.__init__ i o (init "W_o") ;;
  Ok (mk self_d_model self_num_heads self_head_dim W_q W_k W_v W_o).

(** [math.sqrt(self.head_dim)] *)
Definition scale (self : t) : result R :=
  if (head_dim self <? 0)%Z then Raise ValueError
  else Ok (sqrt (IZR (head_dim self))).

(** The masking sentinel, [-1e9]. *)
Definition neg_large : R := (- 1000000000)%R.

(** The first part of [scaled_dot_product_attention], up to the masking:
    the value of the local [attn_scores] that the softmax receives. *)
Definition attn_scores (self : t) (Q K : tensor R) (mask : option (tensor Z))
  : result (tensor R) :=
  scale <- scale self ;;
  K_t <- transpose K (-2) (-1) ;;
  prod <- matmul Q K_t ;;
  let attn_scores := map_tensor (fun s => (s / scale)%R) prod in
  match mask with
  | Some m => masked_fill attn_scores (eq_zero m) neg_large
  | None => Ok attn_scores
  end.

(** ... and up to the softmax: the value of the local [attn_probs]. *)
Definition attn_probs (self : t) (Q K : tensor R) (mask : option (tensor Z))
  : result (tensor R) :=
  attn_scores <- attn_scores self Q K mask ;;
  Ok (softmax attn_scores).

Definition scaled_dot_product_attention (self : t) (Q K V : tensor R)
  (mask : option (tensor Z)) : result (tensor R) :=
  attn_probs <- attn_probs self Q K mask ;;
  matmul attn_probs V.

Definition _project (self : t) (x : tensor R) (linear : Linear.t) : result (tensor R) :=
  batch_size <- size x 0 ;;
  y <- Linear.forward linear x ;;
  v <- view y [Z.of_nat batch_size; (-1)%Z; num_heads self; head_dim self] ;;
  transpose v 1 2.

Definition forward (self : t) (x_k x_q x_v : tensor R) (mask : option (tensor Z))
  : result (tensor R) :=
  batch_size <- size x_q 0 ;;
  Q_proj <- _project self x_q (W_q self) ;;
  K_proj <- _project self x_k (W_k self) ;;
  V_proj <- _project self x_v (W_v self) ;;
  attn_output <- scaled_dot_product_attention self Q_proj K_proj V_proj mask ;;
  heads <- transpose attn_output 1 2 ;;
  attn_output <- view (contiguous heads) [Z.of_nat batch_size; (-1)%Z; d_model self] ;;
  Linear.forward (W_o self) attn_output.

End MultiHeadAttention.

Module FeedForward.

Record t : Type := mk {
  linear1 : Linear.t;
  linear2 : Linear.t;
  dropout : Dropout.t
}.

Definition default_d_ff : Z := 2048.

Definition __init__ (d_model d_ff : Z) (init : initializer) : result t :=
  let locals := [("self", Self); ("d_model", Int d_model); ("d_ff", Int d_ff)] in
  i <- load_int locals "d_model" ;;
  o <- load_int locals "d_ff" ;;
  linear1 <- Linear.__init__ i o (init "linear1") ;;
  i <- load_int locals "dff" ;;
  o <- load_int locals "d_model" ;;
  linear2 <- Linear.__init__ i o (init "linear2") ;;
  dropout <- Dropout.__init__ (1 / 10)%R ;;
  Ok (mk linear1 linear2 dropout).

Definition forward (self : t) (x : tensor R) (g : rng) : result (tensor R * rng) :=
  h <- Linear.forward (linear1 self) x ;;
  let '(x_layer1, g') := Dropout.forward (dropout self) (relu h) g in
  y <- Linear.forward (linear2 self) x_layer1 ;;
  Ok (y, g').

End FeedForward.

(** What an attribute of a layer instance can hold. *)
Inductive attr : Type :=
| Attention (m : MultiHeadAttention.t)
| Ffn (f : FeedForward.t)
| Norm (n : LayerNorm.t)
| Drop (d : Dropout.t).

Definition as_attention (a : attr) : result MultiHeadAttention.t :=
  match a with
  | Attention m => Ok m
  | _ => Raise TypeError
  end.

Definition as_ffn (a : attr) : result FeedForward.t :=
  match a with
  | Ffn f => Ok f
  | _ => Raise TypeError
  end.

Definition as_norm (a : attr) : result LayerNorm.t :=
  match a with
  | Norm n => Ok n
  | _ => Raise TypeError
  end.

Definition as_dropout (a : attr) : result Dropout.t :=
  match a with
  | Drop d => Ok d
  | _ => Raise TypeError
  end.

Module EncoderLayer.

Record t : Type := mk {
  self_attn : MultiHeadAttention.t;
  ffn : FeedForward.t;
  norm1 : LayerNorm.t;
  norm2 : LayerNorm.t;
  dropout : Dropout.t
}.

Definition __init__ (d_model num_heads : Z) (init : initializer) : result t :=
  self_attn <- MultiHeadAttention.__init__ d_model num_heads init ;;
  ffn <- FeedForward.__init__ d_model FeedForward.default_d_ff init ;;
  norm1 <- LayerNorm.__init__ d_model ;;
  norm2 <- LayerNorm.__init__ d_model ;;
  dropout <- Dropout.__init__ (1 / 10)%R ;;
  Ok (mk self_attn ffn norm1 norm2 dropout).

(** [self.name]: the attributes are those [__init__] assigned. *)
Definition getattr (self : t) (name : string) : result attr :=
  if String.eqb name "self_attn" then Ok (Attention (self_attn self))
  else if String.eqb name "ffn" then Ok (Ffn (ffn self))
  else if String.eqb name "norm1" then Ok (Norm (norm1 self))
  else if String.eqb name "norm2" then Ok (Norm (norm2 self))
  else if String.eqb name "dropout" then Ok (Drop (dropout self))
  else Raise (AttributeError name).

Definition forward (self : t) (x : tensor R) (mask : option (tensor Z)) (g : rng)
  : result (tensor R * rng) :=
  a <- getattr self "self_attn" ;;
  self_attn <- as_attention a ;;
  attn_output <- MultiHeadAttention.forward self_attn x x x None ;;
  a <- getattr self "dropout" ;;
  dropout <- as_dropout a ;;
  let '(dropped, g1) := Dropout.forward dropout attn_output g in
  res1 <- add x dropped ;;
  a <- getattr self "norm1" ;;
  norm1 <- as_norm a ;;
  norm_layer1 <- LayerNorm.forward norm1 res1 ;;
  a <- getattr self "ffn" ;;
  ffn <- as_ffn a ;;
  '(ffn_output, g2) <- FeedForward.forward ffn norm_layer1 g1 ;;
  a <- getattr self "dropout" ;;
  dropout <- as_dropout a ;;
  let '(dropped, g3) := Dropout.forward dropout ffn_output g2 in
  res2 <- add norm_layer1 dropped ;;
  a <- getattr self "norm2" ;;
  norm2 <- as_norm a ;;
  out <- LayerNorm.forward norm2 res2 ;;
  Ok (out, g3).

End EncoderLayer.

Module DecoderLayer.

Record t : Type := mk {
  self_attn : MultiHeadAttention.t;
  cross_attn : MultiHeadAttention.t;
  ffn : FeedForward.t;
  norm1 : LayerNorm.t;
  norm2 : LayerNorm.t;
  norm3 : LayerNorm.t;
  dropout : Dropout.t
}.

Definition __init__ (d_model num_heads : Z) (init : initializer) : result t :=
  self_attn <- MultiHeadAttention.__init__ d_model num_heads init ;;
  cross_attn <- MultiHeadAttention.__init__ d_model num_heads init ;;
  ffn <- FeedForward.__init__ d_model FeedForward.default_d_ff init ;;
  norm1 <- LayerNorm.__init__ d_model ;;
  norm2 <- LayerNorm.__init__ d_model ;;
  norm3 <- LayerNorm.__init__ d_model ;;
  dropout <- Dropout.__init__ (1 / 10)%R ;;
  Ok (mk self_attn cross_attn ffn norm1 norm2 norm3 dropout).

(** [self.name]: the attributes are those [__init__] assigned. *)
Definition getattr (self : t) (name : string) : result attr :=
  if String.eqb name "self_attn" then Ok (Attention (self_attn self))
  else if String.eqb name "cross_attn" then Ok (Attention (cross_attn self))
  else if String.eqb name "ffn" then Ok (Ffn (ffn self))
  else if String.eqb name "norm1" then Ok (Norm (norm1 self))
  else if String.eqb name "norm2" then Ok (Norm (norm2 self))
  else if String.eqb name "norm3" then Ok (Norm (norm3 self))
  else if String.eqb name "dropout" then Ok (Drop (dropout self))
  else Raise (AttributeError name).

(** The first two sublayers of [forward]: self-attention and
    cross-attention, each with its residual connection and normalization.
    Returns the locals [norm_layer1], [cross_attn_output] and [norm_layer2]. *)
Definition attention_sublayers (self : t) (x encoder_output : tensor R)
  (self_mask cross_mask : option (tensor Z)) (g : rng)
  : result (tensor R * tensor R * tensor R * rng) :=
  a <- getattr self "self_attn" ;;
  self_attn <- as_attention a ;;
  attn_output <- MultiHeadAttention.forward self_attn x x x self_mask ;;
  a <- getattr self "dropout" ;;
  dropout <- as_dropout a ;;
  let '(dropped, g1) := Dropout.forward dropout attn_output g in
  res1 <- add x dropped ;;
  a <- getattr self "norm1" ;;
  norm1 <- as_norm a ;;
  norm_layer1 <- LayerNorm.forward norm1 res1 ;;
  a <- getattr self "cross_attn" ;;
  cross_attn <- as_attention a ;;
  cross_attn_output <-
    MultiHeadAttention.forward cross_attn norm_layer1 encoder_output encoder_output
      cross_mask ;;
  a <- getattr self "dropout" ;;
  dropout <- as_dropout a ;;
  let '(dropped, g2) := Dropout.forward dropout cross_attn_output g1 in
  res2 <- add norm_layer1 dropped ;;
  a <- getattr self "norm2" ;;
  norm2 <- as_norm a ;;
  norm_layer2 <- LayerNorm.forward norm2 res2 ;;
  Ok (norm_layer1, cross_attn_output, norm_layer2, g2).

Definition forward (self : t) (x encoder_output : tensor R)
  (self_mask cross_mask : option (tensor Z)) (g : rng)
  : result (tensor R * rng) :=
  '(_, _, norm_layer2, g2) <-
    attention_sublayers self x encoder_output self_mask cross_mask g ;;
  a <- getattr self "ffn" ;;
  ffn <- as_ffn a ;;
  '(ffn_output, g3) <- FeedForward.forward ffn norm_layer2 g2 ;;
  a <- getattr self "Dropout" ;;
  dropout <- as_dropout a ;;
  let '(dropped, g4) := Dropout.forward dropout ffn_output g3 in
  res3 <- add norm_layer2 dropped ;;
  a <- getattr self "norm3" ;;
  norm3 <- as_norm a ;;
  out <- LayerNorm.forward norm3 res3 ;;
  Ok (out, g4).

End DecoderLayer.

(** [[make(i) for i in range(n)]]: the elements are built in order, and the
    first exception ends the construction. *)
Fixpoint comprehension {A : Type} (make : nat -> result A) (i n : nat) : result (list A) :=
  match n with
  | O => Ok []
  | S n' =>
      a <- make i ;;
      rest <- comprehension make (S i) n' ;;
      Ok (a :: rest)
  end.

Module Transformer.

Record t : Type := mk {
  encoder_embedding : Embedding.t;
  decoder_embedding : Embedding.t;
  positional_encoding : PositionalEncoding.t;
  encoder_layers : list EncoderLayer.t;
  decoder_layers : list DecoderLayer.t
}.

Definition default_d_model : Z := 512.
Definition default_num_heads : Z := 8.
Definition default_num_layers : Z := 6.

(** Every layer draws its own initial parameters: [enc_init i] and
    [dec_init i] initialize the [i]-th encoder and decoder layer. *)
Definition __init__ (source_vocab_size target_vocab_size d_model num_heads num_layers : Z)
  (init : initializer) (enc_init dec_init : nat -> initializer) : result t :=
  encoder_embedding <-
    Embedding.__init__ source_vocab_size d_model (fst (init "encoder_embedding")) ;;
  decoder_embedding <-
    Embedding.__init__ target_vocab_size d_model (fst (init "decoder_embedding")) ;;
  positional_encoding <-
    PositionalEncoding.__init__ d_model (1 / 10)%R PositionalEncoding.default_max_len ;;
  encoder_layers <-
    comprehension (fun i => EncoderLayer.__init__ d_model num_heads (enc_init i))
      0 (Z.to_nat num_layers) ;;
  decoder_layers <-
    comprehension (fun i => DecoderLayer.__init__ d_model num_heads (dec_init i))
      0 (Z.to_nat num_layers) ;;
  Ok (mk encoder_embedding decoder_embedding positional_encoding
         encoder_layers decoder_layers).

End Transformer.

(* ------------------------------------------------------------------ *)
(** ** Instances and inputs the statements speak about *)

(** A mask fits scores of shape [s] when it broadcasts to [s]; no mask
    always fits. *)
Definition mask_fits (mask : option (tensor Z)) (s : list nat) : Prop :=
  match mask with
  | Some m => broadcast_shapes s (shape m) = Ok s
  | None => True
  end.

(** A linear layer between vectors of [d] entries. *)
Definition square (l : Linear.t) (d : nat) : Prop :=
  Linear.in_features l = d /\ Linear.out_features l = d.

(** The state [MultiHeadAttention.__init__] sets up for a positive number of
    heads that divides [d_model]: the fields it assigns, the relation it
    asserts, and four [d_model x d_model] projections. *)
Definition well_formed (self : MultiHeadAttention.t) : Prop :=
  (0 < MultiHeadAttention.num_heads self)%Z
  /\ (0 <= MultiHeadAttention.d_model self)%Z
  /\ MultiHeadAttention.head_dim self =
     (MultiHeadAttention.d_model self / MultiHeadAttention.num_heads self)%Z
  /\ (MultiHeadAttention.head_dim self * MultiHeadAttention.num_heads self)%Z =
     MultiHeadAttention.d_model self
  /\ square (MultiHeadAttention.W_q self) (Z.to_nat (MultiHeadAttention.d_model self))
  /\ square (MultiHeadAttention.W_k self) (Z.to_nat (MultiHeadAttention.d_model self))
  /\ square (MultiHeadAttention.W_v self) (Z.to_nat (MultiHeadAttention.d_model self))
  /\ square (MultiHeadAttention.W_o self) (Z.to_nat (MultiHeadAttention.d_model self)).

(** [P] holds the vectors of [x], each mapped through the affine layer [l],
    split over [h] heads of [k] entries: entry [e] of head [hd] at position
    [pos] of batch element [bi] is entry [hd * k + e] of [W x + bias]. *)
Definition head_projection (l : Linear.t) (x P : tensor R) (len h k : nat) : Prop :=
  shape P = [nth 0 (shape x) 0; h; len; k]
  /\ forall bi hd pos e,
      pos < len -> hd < h -> e < k ->
      item P [bi; hd; pos; e]
      = (rsum (fun i => item x [bi; pos; i] * Linear.weight l (hd * k + e) i)
              (Linear.in_features l)
         + Linear.bias l (hd * k + e))%R.

(** A decoder layer over vectors of [d >= 1] entries: two well-formed
    attention modules and normalizations of that width. *)
Definition decoder_well_formed (self : DecoderLayer.t) (d : nat) : Prop :=
  0 < d
  /\ well_formed (DecoderLayer.self_attn self)
  /\ Z.to_nat (MultiHeadAttention.d_model (DecoderLayer.self_attn self)) = d
  /\ well_formed (DecoderLayer.cross_attn self)
  /\ Z.to_nat (MultiHeadAttention.d_model (DecoderLayer.cross_attn self)) = d
  /\ LayerNorm.normalized_shape (DecoderLayer.norm1 self) = d
  /\ LayerNorm.normalized_shape (DecoderLayer.norm2 self) = d.

(** The entries of the table that [PositionalEncoding.__init__] fills, read
    off its statements: entry [i] of the local [div_term], and the entry of
    [pe] at position [pos] and column [col]. *)
Definition div_term_entry (d_model : Z) (i : nat) : R :=
  (exp (INR (2 * i)) * (- ln 10000 / IZR d_model))%R.

Definition pe_entry (d_model : Z) (pos col : nat) : R :=
  let angle := (INR pos * div_term_entry d_model (col / 2))%R in
  if Nat.even col then sin angle else cos angle.

(** The multiplier of the sinusoidal encoding of the literature:
    [10000^(-2i/d_model)]. *)
Definition reference_multiplier (d_model : Z) (i : nat) : R :=
  Rpower 10000 (- (2 * INR i) / IZR d_model).

(** Small concrete instances, on which the statements are exercised:
    [d_model = 4], two heads, all parameters at their simplest values. *)
Definition const_linear (d_in d_out : nat) : Linear.t :=
  Linear.mk d_in d_out (fun _ _ => 0%R) (fun _ => 0%R).

Definition small_attention : MultiHeadAttention.t :=
  MultiHeadAttention.mk 4 2 2
    (const_linear 4 4) (const_linear 4 4) (const_linear 4 4) (const_linear 4 4).

(** An attention module over vectors with no entry ([d_model = 0]). *)
Definition empty_attention : MultiHeadAttention.t :=
  MultiHeadAttention.mk 0 1 0
    (const_linear 0 0) (const_linear 0 0) (const_linear 0 0) (const_linear 0 0).

Definition small_dropout : Dropout.t := Dropout.mk (1 / 10)%R false.

Definition small_ffn : FeedForward.t :=
  FeedForward.mk (const_linear 4 8) (const_linear 8 4) small_dropout.

Definition small_norm : LayerNorm.t :=
  LayerNorm.mk 4 (1 / 100000)%R (fun _ => 1%R) (fun _ => 0%R).

Definition small_encoder : EncoderLayer.t :=
  EncoderLayer.mk small_attention small_ffn small_norm small_norm small_dropout.

Definition small_decoder : DecoderLayer.t :=
  DecoderLayer.mk small_attention small_attention small_ffn
    small_norm small_norm small_norm small_dropout.

Definition const_tensor (s : list nat) (v : R) : tensor R := Tensor s (fun _ => v).

(** One head of one dimension; one query, whose raw similarity to each of
    two keys is [-2e9]; a mask that forbids the first key and allows the
    second. *)
Definition single_head : MultiHeadAttention.t :=
  MultiHeadAttention.mk 1 1 1
    (const_linear 1 1) (const_linear 1 1) (const_linear 1 1) (const_linear 1 1).

Definition far_query : tensor R := const_tensor [1; 1; 1; 1] (- 2000000000).

Definition two_keys : tensor R := const_tensor [1; 1; 2; 1] 1.

Definition first_key_masked : tensor Z :=
  Tensor [1; 1; 1; 2] (fun idx => Z.of_nat (nth 3 idx 0)).

Definition no_draws : rng := fun _ => 0%R.



(** Masks over one query and two keys: one that forbids both keys, one that
    allows both. *)
Definition both_keys_masked : tensor Z := Tensor [1; 1; 1; 2] (fun _ => 0%Z).

Definition no_key_masked : tensor Z := Tensor [1; 1; 1; 2] (fun _ => 1%Z).

(** A feed-forward block between vectors of [d] entries, through [d_ff]
    hidden entries. *)
Definition ffn_well_formed (self : FeedForward.t) (d d_ff : nat) : Prop :=
  Linear.in_features (FeedForward.linear1 self) = d
  /\ Linear.out_features (FeedForward.linear1 self) = d_ff
  /\ Linear.in_features (FeedForward.linear2 self) = d_ff
  /\ Linear.out_features (FeedForward.linear2 self) = d.

(** An encoder layer over vectors of [d >= 1] entries. *)
Definition encoder_well_formed (self : EncoderLayer.t) (d : nat) : Prop :=
  0 < d
  /\ well_formed (EncoderLayer.self_attn self)
  /\ Z.to_nat (MultiHeadAttention.d_model (EncoderLayer.self_attn self)) = d
  /\ (exists d_ff, ffn_well_formed (EncoderLayer.ffn self) d d_ff)
  /\ LayerNorm.normalized_shape (EncoderLayer.norm1 self) = d
  /\ LayerNorm.normalized_shape (EncoderLayer.norm2 self) = d.

(* ------------------------------------------------------------------ *)
(** ** Shapes through the tensor operations *)

Arguments view_item : simpl never.
Arguments zip_item : simpl never.
Arguments masked_fill_item : simpl never.
Arguments softmax_item : simpl never.
Arguments matmul_item : simpl never.
Arguments assign_cols_item : simpl never.
Arguments Linear.forward_item : simpl never.
Arguments Dropout.forward_item : simpl never.
Arguments LayerNorm.forward_item : simpl never.

(** In a run [H : (x <- m ;; k) = Ok _], name the value of the first step;
    the case where it raises contradicts [H]. *)
Ltac step_in H x E :=
  match type of H with
  | bind ?m _ = Ok _ =>
      destruct m as [x|?] eqn:E; cbn [bind] in H; [|discriminate H]
  end.

Lemma is_ok_returns {A : Type} (m : result A) : is_ok m = true -> returns m.
Proof. destruct m as [a|e]; [exists a; reflexivity|discriminate]. Qed.

Lemma of_nat_not_hole (n : nat) : (Z.of_nat n =? -1)%Z = false.
Proof. apply Z.eqb_neq. lia. Qed.

Lemma of_nat_valid (n : nat) : (Z.of_nat n <? -1)%Z = false.
Proof. apply Z.ltb_ge. lia. Qed.

Lemma of_nat_known (n : nat) : (0 <=? Z.of_nat n)%Z = true.
Proof. apply Z.leb_le. lia. Qed.

(** [view] with the second of four sizes inferred. *)
Lemma view_infer_4 {A : Type} (t : tensor A) (a b c : nat) :
  view t [Z.of_nat a; (-1)%Z; Z.of_nat b; Z.of_nat c] =
  let newsize := a * (b * (c * 1)) in
  let n := numel (shape t) in
  if (n =? newsize) || ((0 <? newsize) && (n mod newsize =? 0))
  then
    if newsize =? 0
    then Raise (RuntimeError "view: unspecified dimension is ambiguous")
    else Ok (Tensor [a; n / newsize; b; c] (view_item t [a; n / newsize; b; c]))
  else Raise (RuntimeError "view: shape is invalid for input size").
Proof.
  unfold view.
  cbn [existsb count_occ filter map].
  rewrite !of_nat_valid, !of_nat_known, !of_nat_not_hole.
  destruct (Z.eq_dec (Z.of_nat a) (-1)); [lia|].
  destruct (Z.eq_dec (Z.of_nat b) (-1)); [lia|].
  destruct (Z.eq_dec (Z.of_nat c) (-1)); [lia|].
  destruct (Z.eq_dec (-1) (-1)); [|congruence].
  cbn [orb Z.ltb Z.leb Z.compare Z.eqb Pos.eqb map numel fold_right Nat.ltb Nat.leb Nat.eqb andb].
  rewrite !Nat2Z.id.
  reflexivity.
Qed.

(** [view] with the second of three sizes inferred. *)
Lemma view_infer_3 {A : Type} (t : tensor A) (a b : nat) :
  view t [Z.of_nat a; (-1)%Z; Z.of_nat b] =
  let newsize := a * (b * 1) in
  let n := numel (shape t) in
  if (n =? newsize) || ((0 <? newsize) && (n mod newsize =? 0))
  then
    if newsize =? 0
    then Raise (RuntimeError "view: unspecified dimension is ambiguous")
    else Ok (Tensor [a; n / newsize; b] (view_item t [a; n / newsize; b]))
  else Raise (RuntimeError "view: shape is invalid for input size").
Proof.
  unfold view.
  cbn [existsb count_occ filter map].
  rewrite !of_nat_valid, !of_nat_known, !of_nat_not_hole.
  destruct (Z.eq_dec (Z.of_nat a) (-1)); [lia|].
  destruct (Z.eq_dec (Z.of_nat b) (-1)); [lia|].
  destruct (Z.eq_dec (-1) (-1)); [|congruence].
  cbn [orb Z.ltb Z.leb Z.compare Z.eqb Pos.eqb map numel fold_right Nat.ltb Nat.leb Nat.eqb andb].
  rewrite !Nat2Z.id.
  reflexivity.
Qed.

(** The arithmetic of the inferred size: [b * len * d] elements viewed as
    [b] batches of vectors of [d = h * k] entries give [len] rows. *)
Lemma infer_rows_4 (b len h k : nat) :
  0 < b -> 0 < h * k ->
  let n := numel [b; len; h * k] in
  let newsize := b * (h * (k * 1)) in
  ((n =? newsize) || ((0 <? newsize) && (n mod newsize =? 0)) = true)
  /\ (newsize =? 0) = false /\ n / newsize = len.
Proof.
  intros Hb Hd n newsize.
  assert (Hnew : newsize = b * (h * k)) by (unfold newsize; lia).
  assert (Hn : n = len * newsize) by (unfold n, numel; cbn [fold_right]; lia).
  assert (Hpos : newsize <> 0) by (rewrite Hnew; nia).
  repeat split.
  - rewrite Hn, Nat.Div0.mod_mul.
    replace (0 <? newsize) with true by (symmetry; apply Nat.ltb_lt; lia).
    cbn. apply orb_true_r.
  - apply Nat.eqb_neq. exact Hpos.
  - rewrite Hn. apply Nat.div_mul. exact Hpos.
Qed.

Lemma infer_rows_3 (b len d : nat) :
  0 < b -> 0 < d ->
  let n := numel [b; len; d] in
  let newsize := b * (d * 1) in
  ((n =? newsize) || ((0 <? newsize) && (n mod newsize =? 0)) = true)
  /\ (newsize =? 0) = false /\ n / newsize = len.
Proof.
  intros Hb Hd n newsize.
  assert (Hnew : newsize = b * d) by (unfold newsize; lia).
  assert (Hn : n = len * newsize) by (unfold n, numel; cbn [fold_right]; lia).
  assert (Hpos : newsize <> 0) by (rewrite Hnew; nia).
  repeat split.
  - rewrite Hn, Nat.Div0.mod_mul.
    replace (0 <? newsize) with true by (symmetry; apply Nat.ltb_lt; lia).
    cbn. apply orb_true_r.
  - apply Nat.eqb_neq. exact Hpos.
  - rewrite Hn. apply Nat.div_mul. exact Hpos.
Qed.

(** With no element and a zero among the given sizes, the inferred size is
    ambiguous. *)
Lemma infer_ambiguous (n newsize : nat) :
  n = 0 -> newsize = 0 ->
  ((n =? newsize) || ((0 <? newsize) && (n mod newsize =? 0)) = true)
  /\ (newsize =? 0) = true.
Proof. intros -> ->. split; reflexivity. Qed.

Lemma transpose_last {A : Type} (a b c d : nat) (f : list nat -> A) :
  transpose (Tensor [a; b; c; d] f) (-2) (-1) =
  Ok (Tensor [a; b; d; c] (fun idx => f (swap 2 3 idx))).
Proof. reflexivity. Qed.

Lemma transpose_heads {A : Type} (a b c d : nat) (f : list nat -> A) :
  transpose (Tensor [a; b; c; d] f) 1 2 =
  Ok (Tensor [a; c; b; d] (fun idx => f (swap 1 2 idx))).
Proof. reflexivity. Qed.

Lemma size_batch {A : Type} (b : nat) (rest : list nat) (f : list nat -> A) :
  size (Tensor (b :: rest) f) 0 = Ok b.
Proof. reflexivity. Qed.

Lemma broadcast_rev_same (s : list nat) : broadcast_rev s s = Ok s.
Proof.
  induction s as [|d s IH]; [reflexivity|].
  cbn. rewrite IH. cbn. rewrite Nat.eqb_refl. reflexivity.
Qed.

Lemma matmul_4 (A B : tensor R) (b h n m m' p : nat) :
  shape A = [b; h; n; m] ->
  shape B = [b; h; m'; p] ->
  matmul A B =
  if m =? m' then Ok (Tensor [b; h; n; p] (matmul_item A B 2 m))
  else Raise (RuntimeError "matmul").
Proof.
  intros HA HB. unfold matmul. rewrite HA, HB.
  cbn [rev app].
  destruct (m =? m'); [|reflexivity].
  rewrite broadcast_rev_same. reflexivity.
Qed.

Lemma masked_fill_shape (t : tensor R) (m : tensor bool) (v : R) (y : tensor R) :
  masked_fill t m v = Ok y -> broadcast_shapes (shape t) (shape m) = Ok (shape y).
Proof.
  unfold masked_fill.
  destruct (broadcast_shapes (shape t) (shape m)) as [s|e]; cbn [bind]; [|discriminate].
  intros [= <-]. reflexivity.
Qed.

Lemma masked_fill_fits (t : tensor R) (m : tensor Z) (v : R) :
  mask_fits (Some m) (shape t) ->
  masked_fill t (eq_zero m) v = Ok (Tensor (shape t) (masked_fill_item t (eq_zero m) v)).
Proof.
  unfold mask_fits, masked_fill. cbn [eq_zero map_tensor shape].
  intros ->. reflexivity.
Qed.

Lemma dropout_shape (d : Dropout.t) (x y : tensor R) (g g' : rng) :
  Dropout.forward d x g = (y, g') -> shape y = shape x.
Proof.
  unfold Dropout.forward.
  destruct (Dropout.training d); intros [= <- _]; reflexivity.
Qed.

Lemma broadcast_same (s : list nat) : broadcast_shapes s s = Ok s.
Proof.
  unfold broadcast_shapes. rewrite broadcast_rev_same. cbn [bind].
  rewrite rev_involutive. reflexivity.
Qed.

Lemma add_same_shape (a b : tensor R) (s : list nat) :
  shape a = s -> shape b = s -> add a b = Ok (Tensor s (zip_item Rplus a b)).
Proof.
  intros Ha Hb. unfold add, zip_with.
  rewrite Ha, Hb, broadcast_same. reflexivity.
Qed.

Lemma layer_norm_shape (n : LayerNorm.t) (x : tensor R) (b len d : nat) :
  shape x = [b; len; d] ->
  LayerNorm.normalized_shape n = d ->
  LayerNorm.forward n x = Ok (Tensor [b; len; d] (LayerNorm.forward_item n x)).
Proof.
  intros Hx Hn. unfold LayerNorm.forward. rewrite Hx, Hn.
  cbn [last]. rewrite Nat.eqb_refl. reflexivity.
Qed.

(** Splitting the last dimension into heads: entry [e] of head [hd] is entry
    [hd * k + e] of the vector. *)
Lemma unravel_ravel_heads (b len h k bi li hi ei : nat) :
  li < len -> hi < h -> ei < k ->
  unravel [b; len; h * k] (ravel [b; len; h; k] [bi; li; hi; ei]) = [bi; li; hi * k + ei].
Proof.
  intros Hl Hh He.
  cbn [ravel unravel numel fold_right].
  rewrite !Nat.mul_1_r, !Nat.add_0_r.
  assert (Hin : hi * k + ei < h * k) by nia.
  assert (Hrow : li * (h * k) + (hi * k + ei) < len * (h * k)) by nia.
  set (n := bi * (len * (h * k)) + (li * (h * k) + (hi * k + ei))).
  assert (Hq : n / (len * (h * k)) = bi).
  { symmetry. apply (Nat.div_unique n _ bi (li * (h * k) + (hi * k + ei))); [exact Hrow|].
    unfold n. lia. }
  assert (Hr : n mod (len * (h * k)) = li * (h * k) + (hi * k + ei)).
  { symmetry. apply (Nat.mod_unique n _ bi); [exact Hrow|]. unfold n. lia. }
  rewrite Hq, Hr.
  assert (Hq' : (li * (h * k) + (hi * k + ei)) / (h * k) = li).
  { symmetry. apply (Nat.div_unique _ _ li (hi * k + ei)); [exact Hin|]. lia. }
  assert (Hr' : (li * (h * k) + (hi * k + ei)) mod (h * k) = hi * k + ei).
  { symmetry. apply (Nat.mod_unique _ _ li); [exact Hin|]. lia. }
  rewrite Hq', Hr', Nat.div_1_r.
  reflexivity.
Qed.

Section AttentionShapes.

Variable self : MultiHeadAttention.t.
Variables h k : nat.
Hypothesis Hheads : MultiHeadAttention.num_heads self = Z.of_nat h.
Hypothesis Hdim : MultiHeadAttention.head_dim self = Z.of_nat k.
Hypothesis Hmodel : MultiHeadAttention.d_model self = Z.of_nat (h * k).

(** A projection maps every input vector through the affine layer and hands
    entries [hd * k .. hd * k + k - 1] of the result to head [hd]. *)
Lemma project_value (x : tensor R) (l : Linear.t) (b len : nat) :
  shape x = [b; len; h * k] ->
  Linear.in_features l = h * k ->
  Linear.out_features l = h * k ->
  0 < b -> 0 < h * k ->
  exists P,
    MultiHeadAttention._project self x l = Ok P
    /\ shape P = [b; h; len; k]
    /\ forall bi hi li ei,
        li < len -> hi < h -> ei < k ->
        item P [bi; hi; li; ei]
        = (rsum (fun i => item x [bi; li; i] * Linear.weight l (hi * k + ei) i) (h * k)
           + Linear.bias l (hi * k + ei))%R.
Proof.
  intros Hx Hin Hout Hb Hd.
  destruct x as [s fx]. cbn in Hx. subst s.
  unfold MultiHeadAttention._project, Linear.forward.
  cbn [shape size length wrap_dim bind last removelast app].
  rewrite Hin, Hout, Nat.eqb_refl.
  cbn.
  rewrite Hheads, Hdim, view_infer_4.
  cbn [shape].
  destruct (infer_rows_4 b len h k Hb Hd) as (-> & -> & ->).
  cbn [bind]. rewrite transpose_heads.
  eexists. split; [reflexivity|]. split; [reflexivity|].
  intros bi hi li ei Hl Hh He.
  cbn [item swap nth_error set_nth]. unfold view_item. cbn [shape item].
  rewrite unravel_ravel_heads by assumption.
  unfold Linear.forward_item. cbn [removelast last app item].
  rewrite Hin. reflexivity.
Qed.

Lemma project_shape (x : tensor R) (l : Linear.t) (b len : nat) :
  shape x = [b; len; h * k] ->
  Linear.in_features l = h * k ->
  Linear.out_features l = h * k ->
  0 < b -> 0 < h * k ->
  exists f, MultiHeadAttention._project self x l = Ok (Tensor [b; h; len; k] f).
Proof.
  intros Hx Hin Hout Hb Hd.
  destruct (project_value x l b len Hx Hin Hout Hb Hd) as ([s f] & HP & Hs & _).
  cbn [shape] in Hs. subst s.
  exists f. exact HP.
Qed.

Lemma scale_ok : MultiHeadAttention.scale self = Ok (sqrt (IZR (Z.of_nat k))).
Proof.
  unfold MultiHeadAttention.scale. rewrite Hdim.
  replace (Z.of_nat k <? 0)%Z with false by (symmetry; apply Z.ltb_ge; lia).
  reflexivity.
Qed.

(** The scores have one row per query position and one column per key
    position. *)
Lemma attn_scores_shape (Q K : tensor R) (mask : option (tensor Z)) (b lq lk : nat) :
  shape Q = [b; h; lq; k] ->
  shape K = [b; h; lk; k] ->
  exists f,
    MultiHeadAttention.attn_scores self Q K mask =
    match mask with
    | Some m =>
        masked_fill (Tensor [b; h; lq; lk] f) (eq_zero m) MultiHeadAttention.neg_large
    | None => Ok (Tensor [b; h; lq; lk] f)
    end.
Proof.
  intros HQ HK.
  destruct Q as [sq fq], K as [sk fk]. cbn in HQ, HK. subst sq sk.
  unfold MultiHeadAttention.attn_scores.
  rewrite scale_ok.
  cbn [bind].
  rewrite transpose_last.
  cbn [bind].
  unfold matmul.
  cbn [shape rev app].
  rewrite Nat.eqb_refl, broadcast_rev_same.
  cbn [bind rev app map_tensor shape].
  eexists. reflexivity.
Qed.

Lemma attention_shape (Q K V : tensor R) (mask : option (tensor Z)) (b lq lk lv : nat) :
  shape Q = [b; h; lq; k] ->
  shape K = [b; h; lk; k] ->
  shape V = [b; h; lv; k] ->
  mask_fits mask [b; h; lq; lk] ->
  (forall out,
      MultiHeadAttention.scaled_dot_product_attention self Q K V mask = Ok out ->
      shape out = [b; h; lq; k] /\ lk = lv)
  /\ (lk = lv ->
      exists f,
        MultiHeadAttention.scaled_dot_product_attention self Q K V mask =
        Ok (Tensor [b; h; lq; k] f)).
Proof.
  intros HQ HK HV Hfit.
  unfold MultiHeadAttention.scaled_dot_product_attention, MultiHeadAttention.attn_probs.
  destruct (attn_scores_shape Q K mask b lq lk HQ HK) as [f ->].
  split.
  - intros out.
    destruct mask as [m|].
    + rewrite (masked_fill_fits (Tensor [b; h; lq; lk] f) m _ Hfit).
      cbn [bind shape].
      erewrite matmul_4; [|reflexivity|exact HV].
      destruct (Nat.eqb_spec lk lv); [|discriminate].
      intros [= <-]. split; [reflexivity|assumption].
    + cbn [bind].
      erewrite matmul_4; [|reflexivity|exact HV].
      destruct (Nat.eqb_spec lk lv); [|discriminate].
      intros [= <-]. split; [reflexivity|assumption].
  - intros <-.
    destruct mask as [m|].
    + rewrite (masked_fill_fits (Tensor [b; h; lq; lk] f) m _ Hfit).
      cbn [bind shape].
      erewrite matmul_4; [|reflexivity|exact HV].
      rewrite Nat.eqb_refl.
      eexists. reflexivity.
    + cbn [bind].
      erewrite matmul_4; [|reflexivity|exact HV].
      rewrite Nat.eqb_refl.
      eexists. reflexivity.
Qed.

Hypothesis Hq : square (MultiHeadAttention.W_q self) (h * k).
Hypothesis Hk : square (MultiHeadAttention.W_k self) (h * k).
Hypothesis Hv : square (MultiHeadAttention.W_v self) (h * k).
Hypothesis Ho : square (MultiHeadAttention.W_o self) (h * k).

Lemma merge_heads_shape (t : tensor R) (b len : nat) :
  shape t = [b; h; len; k] ->
  0 < b -> 0 < h * k ->
  exists f,
    (heads <- transpose t 1 2 ;;
     merged <- view (contiguous heads) [Z.of_nat b; (-1)%Z; MultiHeadAttention.d_model self] ;;
     Linear.forward (MultiHeadAttention.W_o self) merged)
    = Ok (Tensor [b; len; h * k] f).
Proof.
  intros Ht Hb Hd.
  destruct t as [s ft]. cbn in Ht. subst s.
  rewrite transpose_heads. cbn [bind]. unfold contiguous.
  rewrite Hmodel, view_infer_3. cbn [shape].
  assert (Hn : numel [b; len; h; k] = numel [b; len; h * k])
    by (unfold numel; cbn [fold_right]; lia).
  rewrite Hn.
  destruct (infer_rows_3 b len (h * k) Hb Hd) as (-> & -> & ->).
  cbn [bind].
  unfold Linear.forward. cbn [shape last removelast app].
  destruct Ho as [-> ->]. rewrite Nat.eqb_refl.
  eexists. reflexivity.
Qed.

(** The shape of attention over a batch of [b >= 1] sequences: the result
    has one row per row of the second argument, and exists only when the
    first and the third argument have as many rows as each other. *)
Lemma forward_shape (x_k x_q x_v : tensor R) (mask : option (tensor Z))
  (b lk lq lv : nat) :
  shape x_k = [b; lk; h * k] ->
  shape x_q = [b; lq; h * k] ->
  shape x_v = [b; lv; h * k] ->
  0 < b -> 0 < h * k ->
  mask_fits mask [b; h; lq; lk] ->
  (forall out,
      MultiHeadAttention.forward self x_k x_q x_v mask = Ok out ->
      shape out = [b; lq; h * k] /\ lk = lv)
  /\ (lk = lv ->
      exists f,
        MultiHeadAttention.forward self x_k x_q x_v mask = Ok (Tensor [b; lq; h * k] f)).
Proof.
  intros Hxk Hxq Hxv Hb Hd Hfit.
  unfold MultiHeadAttention.forward.
  destruct (project_shape x_q _ b lq Hxq (proj1 Hq) (proj2 Hq) Hb Hd) as [fq ->].
  destruct (project_shape x_k _ b lk Hxk (proj1 Hk) (proj2 Hk) Hb Hd) as [fk ->].
  destruct (project_shape x_v _ b lv Hxv (proj1 Hv) (proj2 Hv) Hb Hd) as [fv ->].
  destruct x_q as [sq fxq]. cbn in Hxq. subst sq.
  rewrite size_batch. cbn [bind].
  destruct (attention_shape (Tensor [b; h; lq; k] fq) (Tensor [b; h; lk; k] fk)
              (Tensor [b; h; lv; k] fv) mask b lq lk lv eq_refl eq_refl eq_refl Hfit)
    as [Hinv Hrun].
  split.
  - intros out.
    destruct (MultiHeadAttention.scaled_dot_product_attention _ _ _ _ _) as [a|e];
      cbn [bind]; [|discriminate].
    destruct (Hinv a eq_refl) as [Ha <-].
    destruct (merge_heads_shape a b lq Ha Hb Hd) as [f ->].
    intros [= <-]. split; reflexivity.
  - intros Hlen.
    destruct (Hrun Hlen) as [fa ->]. cbn [bind].
    exact (merge_heads_shape (Tensor [b; h; lq; k] fa) b lq eq_refl Hb Hd).
Qed.

(** Without a mask the only failure is the product of the probabilities
    with the values. *)
Lemma forward_unmasked (x_k x_q x_v : tensor R) (b lk lq lv : nat) :
  shape x_k = [b; lk; h * k] ->
  shape x_q = [b; lq; h * k] ->
  shape x_v = [b; lv; h * k] ->
  0 < b -> 0 < h * k ->
  lk <> lv ->
  MultiHeadAttention.forward self x_k x_q x_v None = Raise (RuntimeError "matmul").
Proof.
  intros Hxk Hxq Hxv Hb Hd Hne.
  unfold MultiHeadAttention.forward.
  destruct (project_shape x_q _ b lq Hxq (proj1 Hq) (proj2 Hq) Hb Hd) as [fq ->].
  destruct (project_shape x_k _ b lk Hxk (proj1 Hk) (proj2 Hk) Hb Hd) as [fk ->].
  destruct (project_shape x_v _ b lv Hxv (proj1 Hv) (proj2 Hv) Hb Hd) as [fv ->].
  destruct x_q as [sq fxq]. cbn in Hxq. subst sq.
  rewrite size_batch. cbn [bind].
  unfold MultiHeadAttention.scaled_dot_product_attention, MultiHeadAttention.attn_probs.
  destruct (attn_scores_shape (Tensor [b; h; lq; k] fq) (Tensor [b; h; lk; k] fk)
              None b lq lk eq_refl eq_refl) as [f ->].
  cbn [bind].
  erewrite matmul_4; [|reflexivity|reflexivity].
  destruct (Nat.eqb_spec lk lv); [contradiction|reflexivity].
Qed.

(** An empty batch (or vectors with no entry): the size that [view] should
    infer is ambiguous. *)
Lemma forward_no_element (x_k x_q x_v : tensor R) (mask : option (tensor Z))
  (b len : nat) :
  shape x_q = [b; len; h * k] ->
  b * (h * k) = 0 ->
  MultiHeadAttention.forward self x_k x_q x_v mask =
  Raise (RuntimeError "view: unspecified dimension is ambiguous").
Proof.
  intros Hxq Hz.
  destruct x_q as [sq fxq]. cbn in Hxq. subst sq.
  unfold MultiHeadAttention.forward, MultiHeadAttention._project.
  rewrite size_batch. cbn [bind].
  unfold Linear.forward. cbn [shape last removelast app].
  destruct Hq as [-> ->]. rewrite Nat.eqb_refl. cbn [bind].
  rewrite Hheads, Hdim, (view_infer_4 _ b h k).
  cbn [shape].
  destruct (infer_ambiguous (numel [b; len; h * k]) (b * (h * (k * 1)))) as [-> ->].
  - unfold numel. cbn [fold_right]. nia.
  - nia.
  - reflexivity.
Qed.

End AttentionShapes.

Lemma well_formed_dims (self : MultiHeadAttention.t) :
  well_formed self ->
  exists h k,
    MultiHeadAttention.num_heads self = Z.of_nat h
    /\ MultiHeadAttention.head_dim self = Z.of_nat k
    /\ MultiHeadAttention.d_model self = Z.of_nat (h * k)
    /\ Z.to_nat (MultiHeadAttention.num_heads self) = h
    /\ Z.to_nat (MultiHeadAttention.d_model self) = h * k.
Proof.
  intros (Hh & Hd & Hdiv & Hmul & _).
  assert (Hk : (0 <= MultiHeadAttention.head_dim self)%Z)
    by (rewrite Hdiv; apply Z.div_pos; lia).
  exists (Z.to_nat (MultiHeadAttention.num_heads self)),
         (Z.to_nat (MultiHeadAttention.head_dim self)).
  rewrite <- Z2Nat.inj_mul, (Z.mul_comm (MultiHeadAttention.num_heads self)), Hmul by lia.
  rewrite !Z2Nat.id by lia.
  repeat split; reflexivity.
Qed.

(** The shape lemmas of attention, for a well-formed module. *)
Lemma forward_shape_wf (self : MultiHeadAttention.t) (x_k x_q x_v : tensor R)
  (mask : option (tensor Z)) (b lk lq lv d : nat) :
  well_formed self ->
  Z.to_nat (MultiHeadAttention.d_model self) = d ->
  0 < d -> 0 < b ->
  shape x_k = [b; lk; d] ->
  shape x_q = [b; lq; d] ->
  shape x_v = [b; lv; d] ->
  (mask_fits mask [b; Z.to_nat (MultiHeadAttention.num_heads self); lq; lk] ->
   forall out,
     MultiHeadAttention.forward self x_k x_q x_v mask = Ok out ->
     shape out = [b; lq; d] /\ lk = lv)
  /\ (mask_fits mask [b; Z.to_nat (MultiHeadAttention.num_heads self); lq; lk] ->
      lk = lv ->
      exists f, MultiHeadAttention.forward self x_k x_q x_v mask = Ok (Tensor [b; lq; d] f))
  /\ (lk <> lv ->
      MultiHeadAttention.forward self x_k x_q x_v None = Raise (RuntimeError "matmul")).
Proof.
  intros Hwf Hdm Hd Hb Hxk Hxq Hxv.
  destruct (well_formed_dims self Hwf) as (h & k & Hh & Hk & Hm & Hhn & Hmn).
  destruct Hwf as (_ & _ & _ & _ & Hq & Hkk & Hv & Ho).
  rewrite Hmn in *. rewrite Hhn. subst d.
  pose proof (forward_shape self h k Hh Hk Hm Hq Hkk Hv Ho x_k x_q x_v mask
                b lk lq lv Hxk Hxq Hxv Hb Hd) as Hshape.
  split; [intros Hfit; exact (proj1 (Hshape Hfit))|].
  split; [intros Hfit; exact (proj2 (Hshape Hfit))|].
  intros Hne.
  exact (forward_unmasked self h k Hh Hk Hm Hq Hkk Hv x_k x_q x_v b lk lq lv
           Hxk Hxq Hxv Hb Hd Hne).
Qed.

(** Without a batch element there is no result. *)
Lemma forward_empty_batch_wf (self : MultiHeadAttention.t) (x_k x_q x_v : tensor R)
  (mask : option (tensor Z)) (len : nat) :
  well_formed self ->
  shape x_q = [0; len; Z.to_nat (MultiHeadAttention.d_model self)] ->
  MultiHeadAttention.forward self x_k x_q x_v mask =
  Raise (RuntimeError "view: unspecified dimension is ambiguous").
Proof.
  intros Hwf Hxq.
  destruct (well_formed_dims self Hwf) as (h & k & Hh & Hk & Hm & Hhn & Hmn).
  destruct Hwf as (_ & _ & _ & _ & Hq & _).
  rewrite Hmn in *.
  exact (forward_no_element self h k Hh Hk Hm Hq x_k x_q x_v mask 0 len Hxq eq_refl).
Qed.

Lemma small_attention_well_formed : well_formed small_attention.
Proof.
  unfold well_formed, square. cbn.
  repeat split; try reflexivity; lia.
Qed.

(* ------------------------------------------------------------------ *)
(** ** The constructors *)

(** The outcome of [MultiHeadAttention.__init__], whatever its arguments. *)
Lemma attention_init_outcome (d_model num_heads : Z) (init : initializer) :
  MultiHeadAttention.__init__ d_model num_heads init =
  if (num_heads =? 0)%Z then Raise ZeroDivisionError
  else Raise (NameError "head_dim").
Proof.
  unfold MultiHeadAttention.__init__, load_int, load_name, floordiv.
  cbn [lookup String.eqb Ascii.eqb Bool.eqb bind as_int].
  destruct (num_heads =? 0)%Z; reflexivity.
Qed.

(** C2 (the code departs from the claim).  [MultiHeadAttention.__init__]
    stores [self.head_dim] and then asserts on the bare name [head_dim],
    which nothing binds: for every [d_model] and every non-zero [num_heads],
    divisible or not, construction raises [NameError]; for [num_heads = 0]
    the division before it raises [ZeroDivisionError].  No construction
    succeeds, and the divisibility assertion is never evaluated. *)
Theorem MultiHeadAttention_init_raises (d_model num_heads : Z) (init : initializer) :
  MultiHeadAttention.__init__ d_model num_heads init =
  (if (num_heads =? 0)%Z then Raise ZeroDivisionError
   else Raise (NameError "head_dim"))
  /\ ~ returns (MultiHeadAttention.__init__ d_model num_heads init).
Proof.
  rewrite attention_init_outcome.
  split; [reflexivity|].
  intros [self Hself]. destruct (num_heads =? 0)%Z; discriminate Hself.
Qed.

Example MultiHeadAttention_init_512_8 (init : initializer) :
  (512 mod 8 = 0)%Z
  /\ MultiHeadAttention.__init__ 512 8 init = Raise (NameError "head_dim").
Proof. split; reflexivity. Qed.

(** C5 (the code departs from the claim).  [FeedForward.__init__] builds its
    second affine stage from the name [dff], which nothing binds: once the
    first stage is built, construction raises [NameError], for every
    [d_model] and [d_ff]. *)
Theorem FeedForward_init_raises (d_model d_ff : Z) (init : initializer) :
  FeedForward.__init__ d_model d_ff init =
  if ((d_model <? 0) || (d_ff <? 0))%Z
  then Raise (RuntimeError "linear: negative dimension")
  else Raise (NameError "dff").
Proof.
  unfold FeedForward.__init__, load_int, load_name, Linear.__init__.
  cbn [lookup String.eqb Ascii.eqb Bool.eqb bind as_int].
  destruct ((d_model <? 0) || (d_ff <? 0))%Z; reflexivity.
Qed.

(** The forward pass of an instance, had one been built, is the composition
    the contract describes. *)
Lemma FeedForward_forward_unfold (self : FeedForward.t) (x : tensor R) (g : rng) :
  FeedForward.forward self x g =
  (h <- Linear.forward (FeedForward.linear1 self) x ;;
   y <- Linear.forward (FeedForward.linear2 self)
          (fst (Dropout.forward (FeedForward.dropout self) (relu h) g)) ;;
   Ok (y, snd (Dropout.forward (FeedForward.dropout self) (relu h) g))).
Proof.
  unfold FeedForward.forward.
  destruct (Linear.forward (FeedForward.linear1 self) x) as [h|e]; [|reflexivity].
  cbn [bind].
  destruct (Dropout.forward (FeedForward.dropout self) (relu h) g) as [d g'].
  reflexivity.
Qed.

(** Both layer constructors start by building an attention module, so
    neither returns. *)
Lemma EncoderLayer_init_raises (d_model num_heads : Z) (init : initializer) :
  ~ returns (EncoderLayer.__init__ d_model num_heads init).
Proof.
  unfold EncoderLayer.__init__. rewrite attention_init_outcome.
  intros [a Ha]. destruct (num_heads =? 0)%Z; discriminate Ha.
Qed.

Lemma DecoderLayer_init_raises (d_model num_heads : Z) (init : initializer) :
  ~ returns (DecoderLayer.__init__ d_model num_heads init).
Proof.
  unfold DecoderLayer.__init__. rewrite attention_init_outcome.
  intros [a Ha]. destruct (num_heads =? 0)%Z; discriminate Ha.
Qed.

(* ------------------------------------------------------------------ *)
(** ** The layers *)

(** C9.  [EncoderLayer.forward] never reads its [mask] parameter (its
    self-attention is called without one): for every input, every two mask
    arguments and every state of the dropout, the two calls have the same
    outcome: the same value and the same remaining randomness, or the same
    exception. *)
Theorem EncoderLayer_forward_ignores_mask (self : EncoderLayer.t) (x : tensor R)
  (m1 m2 : option (tensor Z)) (g : rng) :
  EncoderLayer.forward self x m1 g = EncoderLayer.forward self x m2 g.
Proof. reflexivity. Qed.

(** On a well-shaped input the encoder layer does return, with or without a
    mask argument. *)
Example EncoderLayer_forward_returns :
  returns (EncoderLayer.forward small_encoder (const_tensor [1; 2; 4] 0) None no_draws)
  /\ returns (EncoderLayer.forward small_encoder (const_tensor [1; 2; 4] 0)
                (Some first_key_masked) no_draws).
Proof. split; apply is_ok_returns; reflexivity. Qed.

(** C4 (the code departs from the claim).  The last residual step of
    [DecoderLayer.forward] reads [self.Dropout]; the instance has an
    attribute [dropout] and none called [Dropout].  So no call returns; a
    call that gets through the attention and feed-forward sublayers raises
    [AttributeError]. *)
Theorem DecoderLayer_forward_never_returns :
  (forall (self : DecoderLayer.t) (x encoder_output : tensor R)
          (self_mask cross_mask : option (tensor Z)) (g : rng),
      (exists e,
          DecoderLayer.forward self x encoder_output self_mask cross_mask g = Raise e)
      /\ DecoderLayer.forward self x encoder_output self_mask cross_mask g =
         match DecoderLayer.attention_sublayers self x encoder_output
                 self_mask cross_mask g with
         | Raise e => Raise e
         | Ok (_, _, norm_layer2, g2) =>
             match FeedForward.forward (DecoderLayer.ffn self) norm_layer2 g2 with
             | Raise e => Raise e
             | Ok _ => Raise (AttributeError "Dropout")
             end
         end)
  /\ DecoderLayer.forward small_decoder (const_tensor [1; 2; 4] 0)
       (const_tensor [1; 2; 4] 0) None None no_draws
     = Raise (AttributeError "Dropout").
Proof.
  split; [|reflexivity].
  intros self x encoder_output self_mask cross_mask g.
  unfold DecoderLayer.forward.
  destruct (DecoderLayer.attention_sublayers _ _ _ _ _ _) as [[[[n1 c] n2] g2]|e];
    cbn [bind]; [|split; [eexists|]; reflexivity].
  unfold DecoderLayer.getattr.
  cbn [String.eqb Ascii.eqb Bool.eqb bind as_ffn].
  destruct (FeedForward.forward _ _ _) as [[y g3]|e]; cbn [bind];
    (split; [eexists|]; reflexivity).
Qed.

(* ------------------------------------------------------------------ *)
(** ** Multi-head attention *)

(** C6 (as amended).  For a well-formed attention module with
    [d_model >= 1], every batch size [b >= 1], every sequence length [len]
    (zero included) and every input of shape [(b, len, d_model)], attention
    of the input over itself, under no mask or under any mask that fits the
    scores, returns a tensor of shape [(b, len, d_model)]. *)
Theorem MultiHeadAttention_self_attention_shape (self : MultiHeadAttention.t)
  (x : tensor R) (mask : option (tensor Z)) (b len : nat) :
  well_formed self ->
  (0 < MultiHeadAttention.d_model self)%Z ->
  0 < b ->
  shape x = [b; len; Z.to_nat (MultiHeadAttention.d_model self)] ->
  mask_fits mask [b; Z.to_nat (MultiHeadAttention.num_heads self); len; len] ->
  exists out,
    MultiHeadAttention.forward self x x x mask = Ok out
    /\ shape out = [b; len; Z.to_nat (MultiHeadAttention.d_model self)].
Proof.
  intros Hwf Hd Hb Hx Hfit.
  destruct (well_formed_dims self Hwf) as (h & k & Hh & Hk & Hm & Hhn & Hmn).
  destruct Hwf as (_ & _ & _ & _ & Hq & Hkk & Hv & Ho).
  rewrite Hmn in *. rewrite Hhn in Hfit.
  assert (Hpos : 0 < h * k) by lia.
  destruct (forward_shape self h k Hh Hk Hm Hq Hkk Hv Ho x x x mask b len len len
              Hx Hx Hx Hb Hpos Hfit) as [_ Hrun].
  destruct (Hrun eq_refl) as [f ->].
  eexists. split; reflexivity.
Qed.

Lemma MultiHeadAttention_self_attention_shape_witness :
  exists out,
    MultiHeadAttention.forward small_attention (const_tensor [2; 3; 4] 0)
      (const_tensor [2; 3; 4] 0) (const_tensor [2; 3; 4] 0) None = Ok out
    /\ shape out = [2; 3; 4].
Proof.
  apply (MultiHeadAttention_self_attention_shape small_attention
           (const_tensor [2; 3; 4] 0) None 2 3).
  - exact small_attention_well_formed.
  - reflexivity.
  - apply Nat.lt_0_succ.
  - reflexivity.
  - exact I.
Defined.

(** C6 as stated fails on tensors with no element.  With an empty batch
    ([b = 0]) the size [-1] of the head-splitting [view] cannot be inferred,
    and [forward] raises instead of returning a tensor of shape
    [(0, len, d_model)]; the same happens for [d_model = 0], which every
    number of heads divides. *)
Lemma MultiHeadAttention_empty_batch_raises :
  (well_formed small_attention
   /\ shape (const_tensor [0; 3; 4] 0) =
      [0; 3; Z.to_nat (MultiHeadAttention.d_model small_attention)]
   /\ MultiHeadAttention.forward small_attention (const_tensor [0; 3; 4] 0)
        (const_tensor [0; 3; 4] 0) (const_tensor [0; 3; 4] 0) None
      = Raise (RuntimeError "view: unspecified dimension is ambiguous"))
  /\ (well_formed empty_attention
      /\ shape (const_tensor [2; 3; 0] 0) =
         [2; 3; Z.to_nat (MultiHeadAttention.d_model empty_attention)]
      /\ MultiHeadAttention.forward empty_attention (const_tensor [2; 3; 0] 0)
           (const_tensor [2; 3; 0] 0) (const_tensor [2; 3; 0] 0) None
         = Raise (RuntimeError "view: unspecified dimension is ambiguous")).
Proof.
  split.
  - split; [exact small_attention_well_formed|]. split; reflexivity.
  - split; [|split; reflexivity].
    unfold well_formed, square. cbn.
    repeat split; try reflexivity; lia.
Qed.

Lemma project_head_projection (self : MultiHeadAttention.t) (l : Linear.t)
  (x : tensor R) (b len : nat) :
  well_formed self ->
  (0 < MultiHeadAttention.d_model self)%Z ->
  square l (Z.to_nat (MultiHeadAttention.d_model self)) ->
  0 < b ->
  shape x = [b; len; Z.to_nat (MultiHeadAttention.d_model self)] ->
  exists P,
    MultiHeadAttention._project self x l = Ok P
    /\ head_projection l x P len
         (Z.to_nat (MultiHeadAttention.num_heads self))
         (Z.to_nat (MultiHeadAttention.head_dim self)).
Proof.
  intros Hwf Hd [Hin Hout] Hb Hx.
  destruct (well_formed_dims self Hwf) as (h & k & Hh & Hk & Hm & Hhn & Hmn).
  rewrite Hmn in *. rewrite Hhn, Hk, Nat2Z.id.
  assert (Hpos : 0 < h * k) by lia.
  destruct (project_value self h k Hh Hk x l b len Hx Hin Hout Hb Hpos)
    as (P & HP & Hshape & Hentry).
  exists P. split; [exact HP|].
  unfold head_projection. rewrite Hx, Hin. cbn [nth].
  split; assumption.
Qed.



(** A mask larger than the scores is not refused: [masked_fill] broadcasts
    the scores to it, and the output grows with them.  With one position in
    every input, a mask of three rows makes [forward] return three
    positions; with three positions and a mask over five batch elements it
    returns fifteen. *)
Example MultiHeadAttention_forward_oversized_mask :
  (exists out,
      MultiHeadAttention.forward small_attention (const_tensor [1; 1; 4] 0)
        (const_tensor [1; 1; 4] 0) (const_tensor [1; 1; 4] 0)
        (Some (Tensor [1; 1; 3; 1] (fun _ => 1%Z))) = Ok out
      /\ shape out = [1; 3; 4])
  /\ (exists out,
      MultiHeadAttention.forward small_attention (const_tensor [1; 3; 4] 0)
        (const_tensor [1; 3; 4] 0) (const_tensor [1; 3; 4] 0)
        (Some (Tensor [5; 1; 1; 3] (fun _ => 1%Z))) = Ok out
      /\ shape out = [1; 15; 4]).
Proof. split; eexists; split; reflexivity. Qed.

(* ------------------------------------------------------------------ *)
(** ** Cross-attention in the decoder layer *)

Lemma small_decoder_well_formed : decoder_well_formed small_decoder 4.
Proof.
  refine (conj (Nat.lt_0_succ 3)
           (conj small_attention_well_formed
              (conj eq_refl
                 (conj small_attention_well_formed
                    (conj eq_refl (conj eq_refl eq_refl)))))).
Qed.

(** The residual connection and normalization after an attention sublayer
    keep the shape. *)
Lemma residual_shape (dr : Dropout.t) (n : LayerNorm.t) (x a : tensor R)
  (g : rng) (b len d : nat) :
  shape x = [b; len; d] ->
  shape a = [b; len; d] ->
  LayerNorm.normalized_shape n = d ->
  exists f,
    (res <- add x (fst (Dropout.forward dr a g)) ;; LayerNorm.forward n res)
    = Ok (Tensor [b; len; d] f).
Proof.
  intros Hx Ha Hn.
  destruct (Dropout.forward dr a g) as [dropped g1] eqn:Hdrop.
  apply dropout_shape in Hdrop. rewrite Ha in Hdrop.
  cbn [fst].
  rewrite (add_same_shape x dropped [b; len; d] Hx Hdrop). cbn [bind].
  erewrite layer_norm_shape; [|reflexivity|exact Hn].
  eexists. reflexivity.
Qed.

(** With target and source of the same length the two attention sublayers
    do return. *)
Example attention_sublayers_return :
  returns (DecoderLayer.attention_sublayers small_decoder (const_tensor [1; 2; 4] 0)
             (const_tensor [1; 2; 4] 0) None None no_draws).
Proof. apply is_ok_returns. reflexivity. Qed.

(** What a returning run of the two attention sublayers went through. *)
Lemma attention_sublayers_inv (self : DecoderLayer.t) (x encoder_output : tensor R)
  (self_mask cross_mask : option (tensor Z)) (g : rng)
  (n1 c n2 : tensor R) (g2 : rng) :
  DecoderLayer.attention_sublayers self x encoder_output self_mask cross_mask g
    = Ok (n1, c, n2, g2) ->
  exists a,
    MultiHeadAttention.forward (DecoderLayer.self_attn self) x x x self_mask = Ok a
    /\ (res <- add x (fst (Dropout.forward (DecoderLayer.dropout self) a g)) ;;
        LayerNorm.forward (DecoderLayer.norm1 self) res) = Ok n1
    /\ MultiHeadAttention.forward (DecoderLayer.cross_attn self)
         n1 encoder_output encoder_output cross_mask = Ok c.
Proof.
  unfold DecoderLayer.attention_sublayers, DecoderLayer.getattr.
  cbn [String.eqb Ascii.eqb Bool.eqb bind as_attention as_dropout as_norm].
  destruct (MultiHeadAttention.forward (DecoderLayer.self_attn self) x x x self_mask)
    as [a|e] eqn:Ea; cbn [bind]; [|discriminate].
  destruct (Dropout.forward (DecoderLayer.dropout self) a g) as [dropped g1] eqn:Ed.
  destruct (add x dropped) as [res1|e] eqn:Er; cbn [bind]; [|discriminate].
  destruct (LayerNorm.forward (DecoderLayer.norm1 self) res1) as [l1|e] eqn:El;
    cbn [bind]; [|discriminate].
  destruct (MultiHeadAttention.forward (DecoderLayer.cross_attn self) l1
              encoder_output encoder_output cross_mask) as [ca|e] eqn:Ec;
    cbn [bind]; [|discriminate].
  destruct (Dropout.forward (DecoderLayer.dropout self) ca g1) as [dropped2 g2'].
  destruct (add l1 dropped2) as [res2|e]; cbn [bind]; [|discriminate].
  destruct (LayerNorm.forward (DecoderLayer.norm2 self) res2) as [l2|e];
    cbn [bind]; [|discriminate].
  intros [= <- <- <- <-].
  exists a. rewrite Ed. cbn [fst]. rewrite Er. cbn [bind].
  repeat split; assumption.
Qed.

(** C1 (the code departs from the claim).  For a decoder state [x] of
    shape [(b, lt, d)] and an encoder output of shape [(b, ls, d)]:
    the cross-attention step is the call
    [cross_attn(norm_layer1, encoder_output, encoder_output, cross_mask)],
    whose first position is the key.  The key comes from the normalized
    self-attention output (projected by [W_k]), the query and the value from
    the encoder output (projected by [W_q] and [W_v]); whenever the step
    returns, without masks or under masks that fit the scores (those of the
    cross-attention have one row per source and one column per target
    position), the two lengths are equal and its output has the source
    length; and when [lt <> ls] the step raises without masks, at the
    product of the attention probabilities with the values, and so does
    [forward]. *)
Theorem DecoderLayer_cross_attention_arguments (self : DecoderLayer.t)
  (x encoder_output : tensor R) (b lt ls d : nat) :
  decoder_well_formed self d ->
  0 < b ->
  shape x = [b; lt; d] ->
  shape encoder_output = [b; ls; d] ->
  let cross := DecoderLayer.cross_attn self in
  let h := Z.to_nat (MultiHeadAttention.num_heads cross) in
  let k := Z.to_nat (MultiHeadAttention.head_dim cross) in
  (forall self_mask cross_mask g n1 c n2 g2,
      mask_fits self_mask
        [b; Z.to_nat (MultiHeadAttention.num_heads (DecoderLayer.self_attn self)); lt; lt] ->
      mask_fits cross_mask [b; h; ls; lt] ->
      DecoderLayer.attention_sublayers self x encoder_output self_mask cross_mask g
        = Ok (n1, c, n2, g2) ->
      MultiHeadAttention.forward cross n1 encoder_output encoder_output cross_mask = Ok c
      /\ (exists Q K V,
            MultiHeadAttention._project cross encoder_output
              (MultiHeadAttention.W_q cross) = Ok Q
            /\ head_projection (MultiHeadAttention.W_q cross) encoder_output Q ls h k
            /\ MultiHeadAttention._project cross n1 (MultiHeadAttention.W_k cross) = Ok K
            /\ head_projection (MultiHeadAttention.W_k cross) n1 K lt h k
            /\ MultiHeadAttention._project cross encoder_output
                 (MultiHeadAttention.W_v cross) = Ok V
            /\ head_projection (MultiHeadAttention.W_v cross) encoder_output V ls h k)
      /\ shape n1 = [b; lt; d]
      /\ shape c = [b; ls; d]
      /\ lt = ls)
  /\ (lt <> ls ->
      forall g,
        DecoderLayer.attention_sublayers self x encoder_output None None g
          = Raise (RuntimeError "matmul")
        /\ DecoderLayer.forward self x encoder_output None None g
          = Raise (RuntimeError "matmul")).
Proof.
  intros (Hd & Hsa & Hsd & Hca & Hcd & Hn1 & Hn2) Hb Hx He cross h k.
  split.
  - intros self_mask cross_mask g n1 c n2 g2 Hfit_self Hfit_cross Hrun.
    destruct (attention_sublayers_inv _ _ _ _ _ _ _ _ _ _ Hrun) as (a & Ha & Hres & Hc).
    destruct (forward_shape_wf _ x x x self_mask b lt lt lt d Hsa Hsd Hd Hb Hx Hx Hx)
      as (Hinv & _ & _).
    destruct (Hinv Hfit_self a Ha) as [Hsa_shape _].
    destruct (residual_shape (DecoderLayer.dropout self) (DecoderLayer.norm1 self)
                x a g b lt d Hx Hsa_shape Hn1) as [f Hf].
    rewrite Hf in Hres. injection Hres as <-.
    destruct (forward_shape_wf _ (Tensor [b; lt; d] f) encoder_output encoder_output
                cross_mask b lt ls ls d Hca Hcd Hd Hb eq_refl He He) as (Hinv' & _ & _).
    destruct (Hinv' Hfit_cross c Hc) as [Hc_shape Hlen].
    split; [exact Hc|]. split; [|split; [reflexivity|split; assumption]].
    assert (Hdz : (0 < MultiHeadAttention.d_model cross)%Z) by (unfold cross; lia).
    pose proof Hca as (_ & _ & _ & _ & Hq & Hkk & Hv & _).
    fold cross in Hca, Hq, Hkk, Hv, Hcd.
    rewrite <- Hcd in He.
    destruct (project_head_projection cross _ encoder_output b ls Hca Hdz Hq Hb He)
      as (Q & HQ & HQe).
    destruct (project_head_projection cross _ (Tensor [b; lt; d] f) b lt Hca Hdz Hkk Hb
                ltac:(rewrite Hcd; reflexivity)) as (K & HK & HKe).
    destruct (project_head_projection cross _ encoder_output b ls Hca Hdz Hv Hb He)
      as (V & HV & HVe).
    exists Q, K, V. repeat (split; [assumption|]). assumption.
  - intros Hne g.
    assert (Hsub :
      DecoderLayer.attention_sublayers self x encoder_output None None g
        = Raise (RuntimeError "matmul")).
    { unfold DecoderLayer.attention_sublayers, DecoderLayer.getattr.
      cbn [String.eqb Ascii.eqb Bool.eqb bind as_attention as_dropout as_norm].
      destruct (forward_shape_wf _ x x x None b lt lt lt d Hsa Hsd Hd Hb Hx Hx Hx)
        as (_ & Hrun & _).
      destruct (Hrun I eq_refl) as [fa ->]. cbn [bind].
      destruct (residual_shape (DecoderLayer.dropout self) (DecoderLayer.norm1 self)
                  x (Tensor [b; lt; d] fa) g b lt d Hx eq_refl Hn1) as [f Hf].
      destruct (Dropout.forward (DecoderLayer.dropout self) (Tensor [b; lt; d] fa) g)
        as [dropped g1].
      cbn [fst] in Hf.
      destruct (add x dropped) as [res1|e]; cbn [bind] in Hf |- *; [|discriminate].
      rewrite Hf. cbn [bind].
      destruct (forward_shape_wf _ (Tensor [b; lt; d] f) encoder_output encoder_output
                  None b lt ls ls d Hca Hcd Hd Hb eq_refl He He) as (_ & _ & Hfail).
      rewrite (Hfail Hne). reflexivity. }
    split; [exact Hsub|].
    unfold DecoderLayer.forward. rewrite Hsub. reflexivity.
Qed.

Lemma DecoderLayer_cross_attention_arguments_witness :
  DecoderLayer.forward small_decoder (const_tensor [1; 2; 4] 0)
    (const_tensor [1; 3; 4] 0) None None no_draws
  = Raise (RuntimeError "matmul").
Proof.
  destruct (DecoderLayer_cross_attention_arguments small_decoder
              (const_tensor [1; 2; 4] 0) (const_tensor [1; 3; 4] 0) 1 2 3 4
              small_decoder_well_formed (Nat.lt_0_succ 0) eq_refl eq_refl)
    as [_ Hraise].
  refine (proj2 (Hraise _ no_draws)).
  discriminate.
Defined.

(** Under a cross-attention mask larger than the scores the two lengths can
    differ: with one target position, three source positions and a mask of
    three columns, the single column of scores is broadcast to the mask and
    both attention sublayers return. *)
Example attention_sublayers_oversized_mask :
  returns (DecoderLayer.attention_sublayers small_decoder (const_tensor [1; 1; 4] 0)
             (const_tensor [1; 3; 4] 0) None
             (Some (Tensor [1; 1; 1; 3] (fun _ => 1%Z))) no_draws).
Proof. apply is_ok_returns. reflexivity. Qed.

(* ------------------------------------------------------------------ *)
(** ** Positional encoding *)

Lemma dropout_init_ok (p : R) :
  (0 <= p <= 1)%R -> Dropout.__init__ p = Ok (Dropout.mk p true).
Proof.
  intros [H0 H1]. unfold Dropout.__init__.
  destruct (Rlt_dec p 0); [lra|].
  destruct (Rlt_dec 1 p); [lra|].
  reflexivity.
Qed.

Lemma dropout_init_inv (p : R) (d : Dropout.t) :
  Dropout.__init__ p = Ok d -> d = Dropout.mk p true.
Proof.
  unfold Dropout.__init__.
  destruct (Rlt_dec p 0); [discriminate|].
  destruct (Rlt_dec 1 p); [discriminate|].
  intros [= <-]. reflexivity.
Qed.

Lemma zeros_inv (dims : list Z) (t : tensor R) :
  zeros dims = Ok t ->
  t = Tensor (map Z.to_nat dims) (fun _ => 0%R)
  /\ forall d, In d dims -> (0 <= d)%Z.
Proof.
  unfold zeros.
  destruct (existsb (fun d => (d <? 0)%Z) dims) eqn:E; [discriminate|].
  intros [= <-]. split; [reflexivity|].
  intros d Hd.
  destruct (Z.ltb_spec d 0) as [Hneg|]; [|assumption].
  assert (existsb (fun d => (d <? 0)%Z) dims = true).
  { apply existsb_exists. exists d. split; [assumption|]. apply Z.ltb_lt. assumption. }
  congruence.
Qed.

Lemma arange_inv (stop step : Z) (t : tensor R) :
  arange stop step = Ok t ->
  t = Tensor [Z.to_nat ((stop + step - 1) / step)]
             (fun idx => IZR (Z.of_nat (hd 0 idx) * step)).
Proof.
  unfold arange. destruct (stop <? 0)%Z; [discriminate|].
  intros [= <-]. reflexivity.
Qed.

Lemma unsqueeze_inv {A : Type} (t u : tensor A) (d : nat) :
  unsqueeze t d = Ok u ->
  u = Tensor (insert_at d 1 (shape t)) (fun idx => item t (remove_at d idx)).
Proof.
  unfold unsqueeze. destruct (d <=? length (shape t)); [|discriminate].
  intros [= <-]. reflexivity.
Qed.

Lemma zip_with_inv {A B C : Type} (f : A -> B -> C) (a : tensor A) (b : tensor B)
  (c : tensor C) :
  zip_with f a b = Ok c ->
  exists s, broadcast_shapes (shape a) (shape b) = Ok s /\ c = Tensor s (zip_item f a b).
Proof.
  unfold zip_with.
  destruct (broadcast_shapes (shape a) (shape b)) as [s|e]; [|discriminate].
  intros [= <-]. exists s. split; reflexivity.
Qed.

Lemma assign_cols_inv (t v u : tensor R) (start : nat) :
  assign_cols t start v = Ok u ->
  u = Tensor (shape t) (assign_cols_item t v start).
Proof.
  unfold assign_cols.
  destruct (shape t) as [|rows [|cols [|]]]; try discriminate.
  destruct (broadcast_shapes _ _) as [s|e]; [|discriminate]. cbn [bind].
  destruct (list_eq_dec Nat.eq_dec _ _); [|discriminate].
  intros [= <-]. reflexivity.
Qed.

(** A column vector times a row vector. *)
Lemma broadcast_outer (m k : nat) : broadcast_shapes [m; 1] [k] = Ok [m; k].
Proof.
  unfold broadcast_shapes. cbn [rev app broadcast_rev bind].
  destruct (Nat.eqb_spec 1 k) as [<-|]; reflexivity.
Qed.

Lemma clamp_in_range_2 (m k r c : nat) :
  r < m -> c < k -> clamp [m; k] [r; c] = [r; c].
Proof.
  intros Hr Hc. cbn [clamp].
  destruct (Nat.eqb_spec m 1); destruct (Nat.eqb_spec k 1);
    repeat f_equal; lia.
Qed.

Lemma bcast_in_range_2 (m k r c : nat) :
  r < m -> c < k -> bcast [m; k] [r; c] = [r; c].
Proof. intros Hr Hc. unfold bcast. cbn [length Nat.sub skipn]. apply clamp_in_range_2; assumption. Qed.

(** An entry of the product of a column vector with a row vector. *)
Lemma outer_entry (a b : tensor R) (m k r c : nat) :
  shape a = [m; 1] -> shape b = [k] ->
  r < m -> c < k ->
  zip_item Rmult a b [r; c] = (item a [r; 0%nat] * item b [c])%R.
Proof.
  intros Ha Hb Hr Hc. unfold zip_item, bcast. rewrite Ha, Hb.
  cbn [length Nat.sub skipn clamp Nat.eqb].
  destruct (Nat.eqb_spec m 1); destruct (Nat.eqb_spec k 1);
    repeat f_equal; lia.
Qed.

Lemma even_column (col : nat) :
  Nat.even col = true ->
  (1 <=? col) && ((col - 1) mod 2 =? 0) = false
  /\ (0 <=? col) && ((col - 0) mod 2 =? 0) = true
  /\ (col - 0) / 2 = col / 2.
Proof.
  intros Hev. apply Nat.even_spec in Hev. destruct Hev as [i ->].
  repeat split.
  - destruct i as [|i]; [reflexivity|].
    apply andb_false_iff. right. apply Nat.eqb_neq.
    replace (2 * S i - 1) with (1 + i * 2) by lia.
    rewrite Nat.Div0.mod_add. cbn. discriminate.
  - rewrite Nat.sub_0_r. cbn [Nat.leb andb].
    apply Nat.eqb_eq. rewrite Nat.mul_comm. apply Nat.Div0.mod_mul.
  - rewrite Nat.sub_0_r. reflexivity.
Qed.

Lemma odd_column (col : nat) :
  Nat.even col = false ->
  (1 <=? col) && ((col - 1) mod 2 =? 0) = true
  /\ (col - 1) / 2 = col / 2.
Proof.
  intros Hev.
  assert (Hodd : Nat.odd col = true) by (unfold Nat.odd; rewrite Hev; reflexivity).
  apply Nat.odd_spec in Hodd. destruct Hodd as [i ->].
  split.
  - apply andb_true_iff. split; [apply Nat.leb_le; lia|].
    apply Nat.eqb_eq.
    replace (2 * i + 1 - 1) with (i * 2) by lia.
    apply Nat.Div0.mod_mul.
  - replace (2 * i + 1 - 1) with (i * 2) by lia.
    rewrite Nat.div_mul by discriminate.
    replace (2 * i + 1) with (1 + i * 2) by lia.
    rewrite Nat.div_add by discriminate. reflexivity.
Qed.

Lemma half_in_range (d : Z) (col : nat) :
  col < Z.to_nat d -> col / 2 < Z.to_nat ((d + 2 - 1) / 2).
Proof.
  intros Hcol.
  assert (Hd : (0 < d)%Z) by lia.
  apply Nat2Z.inj_lt. rewrite Nat2Z.inj_div, Z2Nat.id by (apply Z.div_pos; lia).
  apply Z.div_lt_upper_bound; [lia|].
  assert (Hc : (Z.of_nat col < d)%Z) by lia.
  assert (H2 := Z.mul_div_le (d + 2 - 1) 2 ltac:(lia)).
  assert (H3 := Z.mod_pos_bound (d + 2 - 1) 2 ltac:(lia)).
  assert (H4 := Z.div_mod (d + 2 - 1) 2 ltac:(lia)).
  change (Z.of_nat 2) with 2%Z.
  lia.
Qed.

(** What [PositionalEncoding.__init__] builds, when it returns. *)
Lemma init_table (d_model : Z) (p : R) (max_len : Z) (self : PositionalEncoding.t) :
  PositionalEncoding.__init__ d_model p max_len = Ok self ->
  PositionalEncoding.dropout self = Dropout.mk p true
  /\ shape (PositionalEncoding.pe self) = [1; Z.to_nat max_len; Z.to_nat d_model]
  /\ (0 < d_model)%Z
  /\ forall pos col,
      pos < Z.to_nat max_len -> col < Z.to_nat d_model ->
      item (PositionalEncoding.pe self) [0; pos; col] = pe_entry d_model pos col.
Proof.
  unfold PositionalEncoding.__init__. intros H.
  step_in H drop Edrop. apply dropout_init_inv in Edrop. subst drop.
  step_in H pe0 Ez. apply zeros_inv in Ez. destruct Ez as [-> Hnn].
  step_in H steps Es. apply arange_inv in Es. subst steps.
  step_in H position Ep. apply unsqueeze_inv in Ep. subst position.
  step_in H evens Ee. apply arange_inv in Ee. subst evens.
  destruct (Z.eqb_spec d_model 0) as [|Hd0]; cbn [bind] in H; [discriminate|].
  step_in H angle Ea. apply zip_with_inv in Ea. destruct Ea as (s & Hs & ->).
  cbn [shape insert_at map_tensor] in Hs.
  rewrite broadcast_outer in Hs. injection Hs as <-.
  step_in H pe1 Esin. apply assign_cols_inv in Esin. subst pe1.
  step_in H pe2 Ecos. apply assign_cols_inv in Ecos. subst pe2.
  step_in H pe3 Eun. apply unsqueeze_inv in Eun. subst pe3.
  injection H as <-.
  assert (Hd : (0 < d_model)%Z).
  { assert (0 <= d_model)%Z by (apply Hnn; cbn; auto). lia. }
  split; [reflexivity|]. split; [reflexivity|]. split; [exact Hd|].
  intros pos col Hpos Hcol.
  cbn [PositionalEncoding.pe item remove_at shape map].
  replace ((max_len + 1 - 1) / 1)%Z with max_len
    by (rewrite Z.div_1_r; lia).
  assert (Hhalf := half_in_range d_model col Hcol).
  unfold pe_entry, div_term_entry.
  unfold assign_cols_item at 1. cbn [nth].
  destruct (Nat.even col) eqn:Hev.
  - destruct (even_column col Hev) as (-> & Hzero & Hidx).
    unfold assign_cols_item. cbn [nth item shape map_tensor].
    rewrite Hzero, Hidx, bcast_in_range_2 by assumption.
    erewrite outer_entry; [|reflexivity|reflexivity|assumption|assumption].
    cbn [item map_tensor remove_at hd]. rewrite Z.mul_1_r, <- !INR_IZR_INZ.
    replace (Z.of_nat (col / 2) * 2)%Z with (Z.of_nat (2 * (col / 2))) by lia.
    rewrite <- INR_IZR_INZ. reflexivity.
  - destruct (odd_column col Hev) as (-> & Hidx).
    cbn [item shape map_tensor].
    rewrite Hidx, bcast_in_range_2 by assumption.
    erewrite outer_entry; [|reflexivity|reflexivity|assumption|assumption].
    cbn [item map_tensor remove_at hd]. rewrite Z.mul_1_r, <- !INR_IZR_INZ.
    replace (Z.of_nat (col / 2) * 2)%Z with (Z.of_nat (2 * (col / 2))) by lia.
    rewrite <- INR_IZR_INZ. reflexivity.
Qed.

Lemma ln_10000_pos : (0 < ln 10000)%R.
Proof. rewrite <- ln_1. apply ln_increasing; lra. Qed.

Lemma exp_12_large : (10000 < exp 12)%R.
Proof.
  assert (Ht : (3 / 2 < exp (1 / 2))%R).
  { pose proof (exp_ineq1 (1 / 2)%R ltac:(lra)). lra. }
  assert (H1 : (exp 1 = exp (1 / 2) * exp (1 / 2))%R)
    by (rewrite <- exp_plus; f_equal; lra).
  assert (H2 : (exp 2 = exp 1 * exp 1)%R) by (rewrite <- exp_plus; f_equal; lra).
  assert (H4 : (exp 4 = exp 2 * exp 2)%R) by (rewrite <- exp_plus; f_equal; lra).
  assert (H8 : (exp 8 = exp 4 * exp 4)%R) by (rewrite <- exp_plus; f_equal; lra).
  assert (H12 : (exp 12 = exp 8 * exp 4)%R) by (rewrite <- exp_plus; f_equal; lra).
  assert (B1 : (9 / 4 < exp 1)%R) by nra.
  assert (B2 : (5 < exp 2)%R) by nra.
  assert (B4 : (25 < exp 4)%R) by nra.
  assert (B8 : (625 < exp 8)%R) by nra.
  nra.
Qed.

Lemma ln_10000_lt_12 : (ln 10000 < 12)%R.
Proof.
  rewrite <- (ln_exp 12). apply ln_increasing; [lra|]. exact exp_12_large.
Qed.

Lemma PI_gt_3 : (3 < PI)%R.
Proof. pose proof PI2_3_2. lra. Qed.

(** C3 (the code departs from the claim).  When the constructor returns,
    the table holds, for every position [pos < max_len] and every pair of
    columns [2i], [2i+1] below [d_model],
    [pe[pos, 2i] = sin(pos * m)] and [pe[pos, 2i+1] = cos(pos * m)] with the
    multiplier [m = exp(2i) * (-ln(10000) / d_model)]: the exponential is
    taken of the column index alone and the scaling is applied after it.
    This multiplier is negative for every [i], whereas [10000^(-2i/d_model)]
    is positive; and already at [d_model = 4], [pos = 1], [i = 0] the entry
    is negative where [sin(pos / 10000^(2i/d_model)) = sin 1] is positive. *)
Theorem PositionalEncoding_table_entries (d_model : Z) (p : R) (max_len : Z)
  (self : PositionalEncoding.t) :
  PositionalEncoding.__init__ d_model p max_len = Ok self ->
  (forall pos i,
      pos < Z.to_nat max_len -> 2 * i + 1 < Z.to_nat d_model ->
      item (PositionalEncoding.pe self) [0; pos; 2 * i]
        = sin (INR pos * div_term_entry d_model i)
      /\ item (PositionalEncoding.pe self) [0; pos; 2 * i + 1]
        = cos (INR pos * div_term_entry d_model i))
  /\ (forall i,
      (div_term_entry d_model i < 0 < reference_multiplier d_model i)%R)
  /\ (sin (INR 1 * div_term_entry 4 0) < 0 < sin (INR 1 * reference_multiplier 4 0))%R.
Proof.
  intros Hinit.
  destruct (init_table d_model p max_len self Hinit) as (_ & _ & Hd & Hentry).
  split; [|split].
  - intros pos i Hpos Hi.
    rewrite !Hentry by lia. unfold pe_entry.
    replace (Nat.even (2 * i)) with true
      by (symmetry; apply Nat.even_spec; exists i; reflexivity).
    replace (Nat.even (2 * i + 1)) with false.
    2:{ symmetry. rewrite Nat.add_1_r, Nat.even_succ, <- Nat.negb_even.
        replace (Nat.even (2 * i)) with true
          by (symmetry; apply Nat.even_spec; exists i; reflexivity).
        reflexivity. }
    replace (2 * i / 2) with i by (rewrite Nat.mul_comm, Nat.div_mul; lia).
    replace ((2 * i + 1) / 2) with i.
    2:{ replace (2 * i + 1) with (1 + i * 2) by lia.
        rewrite Nat.div_add by discriminate. reflexivity. }
    split; reflexivity.
  - intros i. unfold div_term_entry, reference_multiplier, Rpower.
    split; [|apply exp_pos].
    pose proof (exp_pos (INR (2 * i))) as He.
    pose proof ln_10000_pos as Hl.
    assert (Hdr : (0 < IZR d_model)%R) by (apply IZR_lt; exact Hd).
    assert (Hq : (0 < ln 10000 / IZR d_model)%R) by (apply Rdiv_lt_0_compat; assumption).
    replace (- ln 10000 / IZR d_model)%R with (- (ln 10000 / IZR d_model))%R
      by (unfold Rdiv; ring).
    nra.
  - unfold div_term_entry, reference_multiplier.
    cbn [INR Nat.mul Nat.add].
    replace (- (2 * 0) / 4)%R with 0%R by lra.
    rewrite exp_0, Rpower_O by lra.
    replace (1 * (1 * (- ln 10000 / 4)))%R with (- ln 10000 / 4)%R by lra.
    replace (1 * 1)%R with 1%R by lra.
    pose proof ln_10000_pos. pose proof ln_10000_lt_12. pose proof PI_gt_3.
    split.
    + apply sin_lt_0_var; lra.
    + apply sin_gt_0; lra.
Qed.

Lemma PositionalEncoding_table_entries_witness :
  exists self,
    PositionalEncoding.__init__ 4 (1 / 10) 2 = Ok self
    /\ item (PositionalEncoding.pe self) [0; 1; 0] = sin (INR 1 * div_term_entry 4 0).
Proof.
  assert (Hinit : returns (PositionalEncoding.__init__ 4 (1 / 10) 2)).
  { unfold PositionalEncoding.__init__.
    rewrite dropout_init_ok by lra.
    eexists. reflexivity. }
  destruct Hinit as [self Hinit].
  exists self. split; [exact Hinit|].
  destruct (PositionalEncoding_table_entries 4 (1 / 10) 2 self Hinit) as (Hentry & _).
  exact (proj1 (Hentry 1 0 (Nat.lt_succ_diag_r 1) (le_S _ _ (le_S _ _ (le_n 2))))).
Defined.

Lemma clamp_in_range_3 (a b c i j k : nat) :
  i < a -> j < b -> k < c -> clamp [a; b; c] [i; j; k] = [i; j; k].
Proof.
  intros Hi Hj Hk. cbn [clamp].
  destruct (Nat.eqb_spec a 1); destruct (Nat.eqb_spec b 1); destruct (Nat.eqb_spec c 1);
    repeat f_equal; lia.
Qed.

(** A hidden state plus one table row per position. *)
Lemma broadcast_batch (b len d : nat) :
  broadcast_shapes [b; len; d] [1; len; d] = Ok [b; len; d].
Proof.
  unfold broadcast_shapes. cbn [rev app broadcast_rev bind].
  rewrite !Nat.eqb_refl.
  destruct (Nat.eqb_spec b 1) as [->|]; reflexivity.
Qed.

Lemma broadcast_lengths_differ (b len m d : nat) :
  len <> m -> len <> 1 -> m <> 1 ->
  broadcast_shapes [b; len; d] [1; m; d] = Raise (RuntimeError "broadcast").
Proof.
  intros Hne Hl Hm.
  unfold broadcast_shapes. cbn [rev app broadcast_rev bind].
  destruct (Nat.eqb_spec b 1) as [->|]; cbn [bind];
    destruct (Nat.eqb_spec len m); try contradiction;
    destruct (Nat.eqb_spec len 1); try contradiction;
    destruct (Nat.eqb_spec m 1); try contradiction; reflexivity.
Qed.

(** C7 (as amended).  For an instance built by the constructor and an input
    [x] of shape [(b, len, d_model)]: when [len <= max_len], [forward]
    returns [dropout(x + pe[:len])], the sum holding
    [x[i, j, k] + pe[j, k]] at every position; when [len > max_len] and
    [max_len >= 2], the addition cannot broadcast and [forward] raises. *)
Theorem PositionalEncoding_forward_adds_table (d_model : Z) (p : R) (max_len : Z)
  (self : PositionalEncoding.t) (x : tensor R) (g : rng) (b len : nat) :
  PositionalEncoding.__init__ d_model p max_len = Ok self ->
  shape x = [b; len; Z.to_nat d_model] ->
  (len <= Z.to_nat max_len ->
   exists y,
     PositionalEncoding.forward self x g
       = Ok (Dropout.forward (PositionalEncoding.dropout self) y g)
     /\ shape y = [b; len; Z.to_nat d_model]
     /\ forall i j k,
         i < b -> j < len -> k < Z.to_nat d_model ->
         item y [i; j; k]
           = (item x [i; j; k] + item (PositionalEncoding.pe self) [0%nat; j; k])%R)
  /\ (Z.to_nat max_len < len -> 2 <= Z.to_nat max_len ->
      PositionalEncoding.forward self x g = Raise (RuntimeError "broadcast")).
Proof.
  intros Hinit Hx.
  destruct (init_table d_model p max_len self Hinit) as (_ & Hpe & _ & _).
  destruct self as [drop pe]. cbn [PositionalEncoding.pe PositionalEncoding.dropout] in *.
  destruct pe as [spe fpe]. cbn [shape] in Hpe. subst spe.
  destruct x as [sx fx]. cbn [shape] in Hx. subst sx.
  unfold PositionalEncoding.forward.
  cbn [PositionalEncoding.pe PositionalEncoding.dropout].
  change (size (Tensor [b; len; Z.to_nat d_model] fx) 1) with (Ok (A := nat) len).
  cbn [bind slice_dim1 shape item].
  unfold add, zip_with, detach. cbn [shape].
  split.
  - intros Hle.
    rewrite Nat.min_l by exact Hle.
    rewrite broadcast_batch. cbn [bind].
    eexists. split; [reflexivity|]. split; [reflexivity|].
    intros i j k Hi Hj Hk.
    cbn [item]. unfold zip_item, bcast.
    cbn [shape item length Nat.sub skipn].
    rewrite clamp_in_range_3 by assumption.
    cbn [clamp Nat.eqb].
    destruct (Nat.eqb_spec len 1); destruct (Nat.eqb_spec (Z.to_nat d_model) 1);
      repeat f_equal; lia.
  - intros Hgt Hmax.
    rewrite Nat.min_r by lia.
    rewrite broadcast_lengths_differ by lia.
    reflexivity.
Qed.

Lemma PositionalEncoding_forward_adds_table_witness :
  exists self,
    PositionalEncoding.__init__ 4 (1 / 10) 2 = Ok self
    /\ exists y,
         PositionalEncoding.forward self (const_tensor [1; 2; 4] 0) no_draws
           = Ok (Dropout.forward (PositionalEncoding.dropout self) y no_draws)
         /\ shape y = [1; 2; 4].
Proof.
  assert (Hinit : returns (PositionalEncoding.__init__ 4 (1 / 10) 2)).
  { unfold PositionalEncoding.__init__.
    rewrite dropout_init_ok by lra.
    eexists. reflexivity. }
  destruct Hinit as [self Hinit].
  exists self. split; [exact Hinit|].
  destruct (PositionalEncoding_forward_adds_table 4 (1 / 10) 2 self
              (const_tensor [1; 2; 4] 0) no_draws 1 2 Hinit eq_refl) as [Hfits _].
  destruct (Hfits (le_n 2)) as (y & Hy & Hshape & _).
  exists y. split; assumption.
Defined.

(** C7 as stated fails for a table of one row: with [max_len = 1] and an
    input of two positions, the slice [pe[:, :2]] has one row, which the
    addition broadcasts over both positions, and [forward] returns.  (With
    an empty table, [max_len = 0], an input of one position is broadcast
    against no row, and [forward] returns as well.) *)
Lemma PositionalEncoding_forward_beyond_table :
  (exists self,
      PositionalEncoding.__init__ 4 (1 / 10) 1 = Ok self
      /\ shape (const_tensor [1; 2; 4] 0) = [1; 2; Z.to_nat 4]
      /\ Z.to_nat 1 < 2
      /\ returns (PositionalEncoding.forward self (const_tensor [1; 2; 4] 0) no_draws))
  /\ (exists self,
      PositionalEncoding.__init__ 4 (1 / 10) 0 = Ok self
      /\ shape (const_tensor [1; 1; 4] 0) = [1; 1; Z.to_nat 4]
      /\ Z.to_nat 0 < 1
      /\ returns (PositionalEncoding.forward self (const_tensor [1; 1; 4] 0) no_draws)).
Proof.
  unfold PositionalEncoding.__init__.
  rewrite dropout_init_ok by lra.
  split.
  - eexists. split; [reflexivity|]. split; [reflexivity|].
    split; [apply Nat.lt_succ_diag_r|].
    eexists. reflexivity.
  - eexists. split; [reflexivity|]. split; [reflexivity|].
    split; [apply Nat.lt_succ_diag_r|].
    eexists. reflexivity.
Qed.

(* ------------------------------------------------------------------ *)
(** ** Masking *)



(** Masking is a step after the unmasked scores. *)
Lemma attn_scores_masked (self : MultiHeadAttention.t) (Q K : tensor R) (m : tensor Z) :
  MultiHeadAttention.attn_scores self Q K (Some m) =
  (t <- MultiHeadAttention.attn_scores self Q K None ;;
   masked_fill t (eq_zero m) MultiHeadAttention.neg_large).
Proof.
  unfold MultiHeadAttention.attn_scores.
  destruct (MultiHeadAttention.scale self) as [sc|e]; [|reflexivity]. cbn [bind].
  destruct (transpose K (-2) (-1)) as [Kt|e]; [|reflexivity]. cbn [bind].
  destruct (matmul Q Kt) as [prod|e]; reflexivity.
Qed.

(** Without a mask the scores have one row per query position and one
    column per key position, and hold the scaled dot products. *)
Lemma attn_scores_unmasked (self : MultiHeadAttention.t) (Q K t : tensor R)
  (b h lq lk kq kk : nat) :
  shape Q = [b; h; lq; kq] ->
  shape K = [b; h; lk; kk] ->
  MultiHeadAttention.attn_scores self Q K None = Ok t ->
  shape t = [b; h; lq; lk].
Proof.
  intros HQ HK.
  destruct K as [sk fk]. cbn [shape] in HK. subst sk.
  unfold MultiHeadAttention.attn_scores.
  destruct (MultiHeadAttention.scale self) as [sc|e]; cbn [bind]; [|discriminate].
  rewrite transpose_last. cbn [bind].
  erewrite matmul_4; [|exact HQ|reflexivity].
  destruct (kq =? kk); cbn [bind]; [|discriminate].
  intros [= <-]. reflexivity.
Qed.

Lemma masked_fill_entry (t : tensor R) (m : tensor Z) (v : R) (s : tensor R)
  (idx : list nat) :
  masked_fill t (eq_zero m) v = Ok s ->
  item s idx
  = if (item m (bcast (shape m) idx) =? 0)%Z then v else item t (bcast (shape t) idx).
Proof.
  unfold masked_fill.
  destruct (broadcast_shapes _ _) as [s'|e]; cbn [bind]; [|discriminate].
  intros [= <-]. reflexivity.
Qed.

Lemma clamp_in_range_4 (a b c d i j k l : nat) :
  i < a -> j < b -> k < c -> l < d -> clamp [a; b; c; d] [i; j; k; l] = [i; j; k; l].
Proof.
  intros Hi Hj Hk Hl. cbn [clamp].
  destruct (Nat.eqb_spec a 1); destruct (Nat.eqb_spec b 1);
    destruct (Nat.eqb_spec c 1); destruct (Nat.eqb_spec d 1);
    repeat f_equal; lia.
Qed.

Lemma bcast_in_range_4 (a b c d i j k l : nat) :
  i < a -> j < b -> k < c -> l < d -> bcast [a; b; c; d] [i; j; k; l] = [i; j; k; l].
Proof.
  intros Hi Hj Hk Hl. unfold bcast. cbn [length Nat.sub skipn].
  apply clamp_in_range_4; assumption.
Qed.

(** Under a mask that fits, the scores keep their shape: an entry is the
    sentinel where the mask is 0 and the unmasked score elsewhere. *)
Lemma attn_scores_fitting (self : MultiHeadAttention.t) (Q K : tensor R)
  (m : tensor Z) (s : tensor R) (b h lq lk kq kk : nat) :
  shape Q = [b; h; lq; kq] ->
  shape K = [b; h; lk; kk] ->
  mask_fits (Some m) [b; h; lq; lk] ->
  MultiHeadAttention.attn_scores self Q K (Some m) = Ok s ->
  shape s = [b; h; lq; lk]
  /\ exists t,
       MultiHeadAttention.attn_scores self Q K None = Ok t
       /\ shape t = [b; h; lq; lk]
       /\ forall bi hi qi j,
           bi < b -> hi < h -> qi < lq -> j < lk ->
           item s [bi; hi; qi; j]
           = if (item m (bcast (shape m) [bi; hi; qi; j]) =? 0)%Z
             then MultiHeadAttention.neg_large
             else item t [bi; hi; qi; j].
Proof.
  intros HQ HK Hfit Hs.
  rewrite attn_scores_masked in Hs. step_in Hs t Ht.
  pose proof (attn_scores_unmasked self Q K t b h lq lk kq kk HQ HK Ht) as Hshape.
  pose proof (masked_fill_shape _ _ _ _ Hs) as Hbc.
  rewrite Hshape in Hbc. cbn [eq_zero map_tensor shape] in Hbc.
  unfold mask_fits in Hfit. rewrite Hfit in Hbc. injection Hbc as Hbc.
  split; [symmetry; exact Hbc|].
  exists t. split; [reflexivity|]. split; [exact Hshape|].
  intros bi hi qi j Hbi Hhi Hqi Hj.
  rewrite (masked_fill_entry _ _ _ _ _ Hs), Hshape, bcast_in_range_4 by assumption.
  reflexivity.
Qed.

(** A probability is the normalized exponential of its score. *)
Lemma softmax_entry (s : tensor R) (b h lq lk bi hi qi j : nat) :
  shape s = [b; h; lq; lk] ->
  item (softmax s) [bi; hi; qi; j]
  = (exp (item s [bi; hi; qi; j])
     / rsum (fun j' => exp (item s [bi; hi; qi; j'])) lk)%R.
Proof.
  intros Hshape. cbn [item softmax]. unfold softmax_item.
  rewrite Hshape. reflexivity.
Qed.




(* ------------------------------------------------------------------ *)
(** * Further properties of the code *)

(** ** Sums *)

Lemma rsum_ext (f g : nat -> R) (n : nat) :
  (forall k, k < n -> f k = g k) -> rsum f n = rsum g n.
Proof.
  induction n as [|n IH]; intros H; [reflexivity|].
  cbn [rsum]. rewrite IH, (H n) by auto with arith. reflexivity.
Qed.

Lemma rsum_const (c : R) (n : nat) : rsum (fun _ => c) n = (INR n * c)%R.
Proof.
  induction n as [|n IH]; [cbn; ring|].
  cbn [rsum]. rewrite IH, S_INR. ring.
Qed.

(** ** Scaled dot-product attention *)

(** X2.  When the mask is 0 at every key position of a query, the sentinel
    [-1e9] replaces all its scores, whatever they were, and the query
    attends uniformly: every key position of the probabilities receives
    [1 / lk], [lk] being their number (in particular a single, forbidden key
    receives all of it). *)
Theorem fully_masked_query_attends_uniformly (self : MultiHeadAttention.t)
  (Q K : tensor R) (m : tensor Z) (p : tensor R)
  (b h lq lk bi hi qi : nat) :
  MultiHeadAttention.attn_probs self Q K (Some m) = Ok p ->
  shape p = [b; h; lq; lk] ->
  (forall j, j < lk -> item m (bcast (shape m) [bi; hi; qi; j]) = 0%Z) ->
  forall j, j < lk -> item p [bi; hi; qi; j] = (1 / INR lk)%R.
Proof.
  intros Hp Hshape Hmask j Hj.
  unfold MultiHeadAttention.attn_probs in Hp.
  step_in Hp s Hs. injection Hp as <-.
  cbn [softmax shape] in Hshape.
  rewrite attn_scores_masked in Hs. step_in Hs t Ht.
  assert (Hrow : forall j', j' < lk ->
            item s [bi; hi; qi; j'] = MultiHeadAttention.neg_large).
  { intros j' Hj'. rewrite (masked_fill_entry _ _ _ _ _ Hs), (Hmask j' Hj').
    reflexivity. }
  rewrite (softmax_entry s b h lq lk bi hi qi j Hshape), (Hrow j Hj).
  rewrite (rsum_ext _ (fun _ => exp MultiHeadAttention.neg_large) lk)
    by (intros j' Hj'; rewrite (Hrow j' Hj'); reflexivity).
  rewrite rsum_const.
  pose proof (exp_pos MultiHeadAttention.neg_large).
  assert (0 < INR lk)%R by (apply lt_0_INR; lia).
  field. split; lra.
Qed.

Lemma fully_masked_query_attends_uniformly_witness :
  exists p,
    MultiHeadAttention.attn_probs single_head far_query two_keys (Some both_keys_masked)
      = Ok p
    /\ item p [0; 0; 0; 1] = (1 / INR 2)%R.
Proof.
  eexists. split; [reflexivity|].
  exact (fully_masked_query_attends_uniformly single_head far_query two_keys
           both_keys_masked _ 1 1 1 2 0 0 0
           eq_refl eq_refl (fun _ _ => eq_refl) 1 (Nat.lt_succ_diag_r 1)).
Defined.

(** X3.  A mask that fits the scores and is 0 at no key position of a query
    changes nothing for that query: the call without a mask returns as well,
    and gives the query the same probabilities. *)
Theorem permissive_mask_changes_nothing (self : MultiHeadAttention.t)
  (Q K : tensor R) (m : tensor Z) (p : tensor R)
  (b h lq lk kq kk bi hi qi : nat) :
  shape Q = [b; h; lq; kq] ->
  shape K = [b; h; lk; kk] ->
  mask_fits (Some m) [b; h; lq; lk] ->
  MultiHeadAttention.attn_probs self Q K (Some m) = Ok p ->
  bi < b -> hi < h -> qi < lq ->
  (forall j, j < lk -> item m (bcast (shape m) [bi; hi; qi; j]) <> 0%Z) ->
  exists p',
    MultiHeadAttention.attn_probs self Q K None = Ok p'
    /\ forall j, j < lk -> item p [bi; hi; qi; j] = item p' [bi; hi; qi; j].
Proof.
  intros HQ HK Hfit Hp Hbi Hhi Hqi Hmask.
  unfold MultiHeadAttention.attn_probs in Hp.
  step_in Hp s Hs. injection Hp as <-.
  destruct (attn_scores_fitting self Q K m s b h lq lk kq kk HQ HK Hfit Hs)
    as (Hshape & t & Ht & Hshape_t & Hentry).
  exists (softmax t). split.
  { unfold MultiHeadAttention.attn_probs. rewrite Ht. reflexivity. }
  assert (Hrow : forall j', j' < lk -> item s [bi; hi; qi; j'] = item t [bi; hi; qi; j']).
  { intros j' Hj'. rewrite (Hentry bi hi qi j' Hbi Hhi Hqi Hj').
    destruct (Z.eqb_spec (item m (bcast (shape m) [bi; hi; qi; j'])) 0) as [Hz|];
      [|reflexivity].
    exfalso. exact (Hmask j' Hj' Hz). }
  intros j Hj.
  rewrite (softmax_entry s b h lq lk bi hi qi j Hshape),
    (softmax_entry t b h lq lk bi hi qi j Hshape_t), (Hrow j Hj).
  f_equal. apply rsum_ext. intros j' Hj'. rewrite (Hrow j' Hj'). reflexivity.
Qed.

Lemma permissive_mask_changes_nothing_witness :
  exists p p',
    MultiHeadAttention.attn_probs single_head far_query two_keys (Some no_key_masked)
      = Ok p
    /\ MultiHeadAttention.attn_probs single_head far_query two_keys None = Ok p'
    /\ item p [0; 0; 0; 1] = item p' [0; 0; 0; 1].
Proof.
  eexists.
  destruct (permissive_mask_changes_nothing single_head far_query two_keys
              no_key_masked _ 1 1 1 2 1 1 0 0 0 eq_refl eq_refl eq_refl eq_refl
              (Nat.lt_0_succ 0) (Nat.lt_0_succ 0) (Nat.lt_0_succ 0)
              (fun _ _ => ltac:(discriminate))) as (p' & Hp' & Hsame).
  exists p'. split; [reflexivity|]. split; [exact Hp'|].
  exact (Hsame 1 (Nat.lt_succ_diag_r 1)).
Defined.

(** ** Splitting and merging heads *)

(** Merging the heads back: entry [c] of the merged vector is entry
    [c mod k] of head [c / k]. *)
Lemma unravel_ravel_merge (b len h k bi pos c : nat) :
  pos < len -> c < h * k ->
  unravel [b; len; h; k] (ravel [b; len; h * k] [bi; pos; c])
  = [bi; pos; c / k; c mod k].
Proof.
  intros Hpos Hc.
  assert (Hk : 0 < k) by nia.
  cbn [ravel unravel numel fold_right].
  rewrite !Nat.mul_1_r, !Nat.add_0_r.
  assert (Hrow : pos * (h * k) + c < len * (h * k)) by nia.
  set (n := bi * (len * (h * k)) + (pos * (h * k) + c)).
  assert (Hq : n / (len * (h * k)) = bi).
  { symmetry. apply (Nat.div_unique n _ bi (pos * (h * k) + c)); [exact Hrow|].
    unfold n. lia. }
  assert (Hr : n mod (len * (h * k)) = pos * (h * k) + c).
  { symmetry. apply (Nat.mod_unique n _ bi); [exact Hrow|]. unfold n. lia. }
  rewrite Hq, Hr.
  assert (Hq' : (pos * (h * k) + c) / (h * k) = pos).
  { symmetry. apply (Nat.div_unique _ _ pos c); [exact Hc|]. lia. }
  assert (Hr' : (pos * (h * k) + c) mod (h * k) = c).
  { symmetry. apply (Nat.mod_unique _ _ pos); [exact Hc|]. lia. }
  rewrite Hq', Hr', Nat.div_1_r.
  reflexivity.
Qed.

Section AttentionValues.

Variable self : MultiHeadAttention.t.
Variables h k : nat.
Hypothesis Hmodel : MultiHeadAttention.d_model self = Z.of_nat (h * k).
Hypothesis Ho : square (MultiHeadAttention.W_o self) (h * k).

(** The last three steps of [forward]: the heads are laid side by side, in
    order, and mapped through [W_o]. *)
Lemma merge_heads_value (t : tensor R) (b len : nat) :
  shape t = [b; h; len; k] ->
  0 < b -> 0 < h * k ->
  exists out,
    (heads <- transpose t 1 2 ;;
     merged <- view (contiguous heads) [Z.of_nat b; (-1)%Z; MultiHeadAttention.d_model self] ;;
     Linear.forward (MultiHeadAttention.W_o self) merged)
    = Ok out
    /\ shape out = [b; len; h * k]
    /\ forall bi pos o,
        pos < len ->
        item out [bi; pos; o]
        = (rsum (fun c => item t [bi; (c / k)%nat; pos; (c mod k)%nat]
                          * Linear.weight (MultiHeadAttention.W_o self) o c) (h * k)
           + Linear.bias (MultiHeadAttention.W_o self) o)%R.
Proof.
  intros Ht Hb Hd.
  destruct t as [s ft]. cbn in Ht. subst s.
  rewrite transpose_heads. cbn [bind]. unfold contiguous.
  rewrite Hmodel, view_infer_3. cbn [shape].
  assert (Hn : numel [b; len; h; k] = numel [b; len; h * k])
    by (unfold numel; cbn [fold_right]; lia).
  rewrite Hn.
  destruct (infer_rows_3 b len (h * k) Hb Hd) as (-> & -> & ->).
  cbn [bind].
  unfold Linear.forward. cbn [shape last removelast app].
  destruct Ho as [Hin ->]. rewrite Hin, Nat.eqb_refl.
  eexists. split; [reflexivity|]. split; [reflexivity|].
  intros bi pos o Hpos.
  cbn [item]. unfold Linear.forward_item. cbn [removelast last app item].
  rewrite Hin. f_equal.
  apply rsum_ext. intros c Hc.
  unfold view_item. cbn [shape item].
  rewrite unravel_ravel_merge by assumption.
  reflexivity.
Qed.

End AttentionValues.

(** X5.  On a non-empty batch, without a mask or under a mask that fits the
    scores, whatever [forward] returns is [W_o] applied, position by
    position, to the heads' attention outputs laid side by side:
    entry [c] of the vector that [W_o] receives is entry [c mod head_dim] of
    head [c / head_dim], which is the layout in which [_project] handed
    entries [hd * head_dim + e] to head [hd].  Merging undoes the split. *)
Theorem MultiHeadAttention_forward_merges_heads (self : MultiHeadAttention.t)
  (x_k x_q x_v : tensor R) (mask : option (tensor Z)) (out : tensor R)
  (b lk lq lv : nat) :
  well_formed self ->
  (0 < MultiHeadAttention.d_model self)%Z ->
  0 < b ->
  shape x_k = [b; lk; Z.to_nat (MultiHeadAttention.d_model self)] ->
  shape x_q = [b; lq; Z.to_nat (MultiHeadAttention.d_model self)] ->
  shape x_v = [b; lv; Z.to_nat (MultiHeadAttention.d_model self)] ->
  mask_fits mask [b; Z.to_nat (MultiHeadAttention.num_heads self); lq; lk] ->
  MultiHeadAttention.forward self x_k x_q x_v mask = Ok out ->
  let h := Z.to_nat (MultiHeadAttention.num_heads self) in
  let k := Z.to_nat (MultiHeadAttention.head_dim self) in
  exists Q K V attn,
    MultiHeadAttention._project self x_q (MultiHeadAttention.W_q self) = Ok Q
    /\ MultiHeadAttention._project self x_k (MultiHeadAttention.W_k self) = Ok K
    /\ MultiHeadAttention._project self x_v (MultiHeadAttention.W_v self) = Ok V
    /\ MultiHeadAttention.scaled_dot_product_attention self Q K V mask = Ok attn
    /\ shape attn = [b; h; lq; k]
    /\ forall bi pos o,
        pos < lq ->
        item out [bi; pos; o]
        = (rsum (fun c => item attn [bi; (c / k)%nat; pos; (c mod k)%nat]
                          * Linear.weight (MultiHeadAttention.W_o self) o c)
                (Z.to_nat (MultiHeadAttention.d_model self))
           + Linear.bias (MultiHeadAttention.W_o self) o)%R.
Proof.
  intros Hwf Hd Hb Hxk Hxq Hxv Hfit Hout h k.
  pose proof Hwf as (_ & _ & _ & _ & Hq & Hkk & Hv & Ho).
  fold h in Hfit.
  destruct (project_head_projection self _ x_q b lq Hwf Hd Hq Hb Hxq) as (Q & HQ & HQs & _).
  destruct (project_head_projection self _ x_k b lk Hwf Hd Hkk Hb Hxk) as (K & HK & HKs & _).
  destruct (project_head_projection self _ x_v b lv Hwf Hd Hv Hb Hxv) as (V & HV & HVs & _).
  rewrite Hxq in HQs. rewrite Hxk in HKs. rewrite Hxv in HVs. cbn [nth] in HQs, HKs, HVs.
  fold h k in HQs, HKs, HVs.
  unfold MultiHeadAttention.forward in Hout. rewrite HQ, HK, HV in Hout.
  destruct x_q as [sq fq]. cbn [shape] in Hxq. subst sq.
  rewrite size_batch in Hout. cbn [bind] in Hout.
  step_in Hout attn Hattn.
  exists Q, K, V, attn. repeat (split; [assumption|]).
  destruct (well_formed_dims self Hwf) as (h' & k' & Hh & Hk & Hm & Hhn & Hmn).
  assert (Hh' : h = h') by exact Hhn.
  assert (Hk' : k = k') by (unfold k; rewrite Hk; apply Nat2Z.id).
  rewrite Hmn in *. rewrite Hh', Hk' in *.
  assert (Hpos : 0 < h' * k') by lia.
  destruct (attention_shape self h' k' Hk Hm Q K V mask b lq lk lv HQs HKs HVs Hfit)
    as [Hinv _].
  destruct (Hinv attn Hattn) as [Hshape _].
  destruct (merge_heads_value self h' k' Hm Ho attn b lq Hshape Hb Hpos)
    as (out' & Hout' & _ & Hentry).
  rewrite Hout' in Hout. injection Hout as <-.
  split; [exact Hshape|exact Hentry].
Qed.

Lemma MultiHeadAttention_forward_merges_heads_witness :
  exists out,
    MultiHeadAttention.forward small_attention (const_tensor [2; 5; 4] 0)
      (const_tensor [2; 3; 4] 0) (const_tensor [2; 5; 4] 0) None = Ok out
    /\ exists attn,
         shape attn = [2; 2; 3; 2]
         /\ item out [0; 0; 0]
            = (rsum (fun c => item attn [0%nat; (c / 2)%nat; 0%nat; (c mod 2)%nat]
                              * Linear.weight (MultiHeadAttention.W_o small_attention) 0%nat c)
                    4
               + Linear.bias (MultiHeadAttention.W_o small_attention) 0%nat)%R.
Proof.
  assert (Hrun : returns (MultiHeadAttention.forward small_attention
                            (const_tensor [2; 5; 4] 0) (const_tensor [2; 3; 4] 0)
                            (const_tensor [2; 5; 4] 0) None))
    by (apply is_ok_returns; reflexivity).
  destruct Hrun as [out Hout].
  exists out. split; [exact Hout|].
  destruct (MultiHeadAttention_forward_merges_heads small_attention
              (const_tensor [2; 5; 4] 0) (const_tensor [2; 3; 4] 0)
              (const_tensor [2; 5; 4] 0) None out 2 5 3 5
              small_attention_well_formed eq_refl (Nat.lt_0_succ 1)
              eq_refl eq_refl eq_refl I Hout)
    as (Q & K & V & attn & _ & _ & _ & _ & Hshape & Hentry).
  exists attn. split; [exact Hshape|].
  exact (Hentry 0 0 0 (Nat.lt_0_succ 2)).
Defined.

(** ** What [forward] refuses *)

Lemma linear_forward_width (l : Linear.t) (x y : tensor R) :
  Linear.forward l x = Ok y ->
  shape x <> [] /\ last (shape x) 0 = Linear.in_features l.
Proof.
  unfold Linear.forward.
  destruct (shape x) as [|d0 rest] eqn:Hs; [discriminate|].
  destruct (Nat.eqb_spec (last (d0 :: rest) 0) (Linear.in_features l)); [|discriminate].
  intros _. split; [discriminate|assumption].
Qed.

Lemma project_width (self : MultiHeadAttention.t) (l : Linear.t) (x P : tensor R) :
  MultiHeadAttention._project self x l = Ok P ->
  shape x <> [] /\ last (shape x) 0 = Linear.in_features l.
Proof.
  unfold MultiHeadAttention._project. intros H.
  step_in H batch_size Hsize. step_in H y Hy.
  exact (linear_forward_width l x y Hy).
Qed.

(** X6.  [forward] returns only for inputs of the module's width: whenever
    it returns, each of the three inputs has at least one dimension and its
    last dimension is [d_model].  An input of another width makes the call
    raise; it is never projected or padded silently. *)
Theorem MultiHeadAttention_forward_checks_width (self : MultiHeadAttention.t)
  (x_k x_q x_v : tensor R) (mask : option (tensor Z)) :
  well_formed self ->
  returns (MultiHeadAttention.forward self x_k x_q x_v mask) ->
  let d := Z.to_nat (MultiHeadAttention.d_model self) in
  (shape x_k <> [] /\ last (shape x_k) 0 = d)
  /\ (shape x_q <> [] /\ last (shape x_q) 0 = d)
  /\ (shape x_v <> [] /\ last (shape x_v) 0 = d).
Proof.
  intros (_ & _ & _ & _ & [Hq _] & [Hk _] & [Hv _] & _) [out H] d.
  unfold MultiHeadAttention.forward in H.
  step_in H batch_size Hsize.
  step_in H Q HQ. step_in H K HK. step_in H V HV.
  apply project_width in HQ, HK, HV.
  rewrite Hq in HQ. rewrite Hk in HK. rewrite Hv in HV.
  repeat split; tauto.
Qed.

Lemma MultiHeadAttention_forward_checks_width_witness :
  last (shape (const_tensor [2; 5; 4] 0)) 0 = 4
  /\ last (shape (const_tensor [2; 3; 4] 0)) 0 = 4.
Proof.
  assert (Hrun : returns (MultiHeadAttention.forward small_attention
                            (const_tensor [2; 5; 4] 0) (const_tensor [2; 3; 4] 0)
                            (const_tensor [2; 5; 4] 0) None))
    by (apply is_ok_returns; reflexivity).
  destruct (MultiHeadAttention_forward_checks_width small_attention
              (const_tensor [2; 5; 4] 0) (const_tensor [2; 3; 4] 0)
              (const_tensor [2; 5; 4] 0) None small_attention_well_formed Hrun)
    as ((_ & Hk) & (_ & Hq) & _).
  split; assumption.
Defined.

(** X7.  A mask is checked against the scores.  For inputs of one non-empty
    batch with as many key as value positions: under a mask that broadcasts
    to the shape [(b, num_heads, lq, lk)] of the scores [forward] returns;
    under a mask whose shape cannot be broadcast with that of the scores it
    raises the broadcasting error; it never drops such a mask. *)
Theorem MultiHeadAttention_forward_checks_mask (self : MultiHeadAttention.t)
  (x_k x_q x_v : tensor R) (m : tensor Z) (b lk lq : nat) :
  well_formed self ->
  (0 < MultiHeadAttention.d_model self)%Z ->
  0 < b ->
  shape x_k = [b; lk; Z.to_nat (MultiHeadAttention.d_model self)] ->
  shape x_q = [b; lq; Z.to_nat (MultiHeadAttention.d_model self)] ->
  shape x_v = [b; lk; Z.to_nat (MultiHeadAttention.d_model self)] ->
  let scores := [b; Z.to_nat (MultiHeadAttention.num_heads self); lq; lk] in
  (mask_fits (Some m) scores ->
   returns (MultiHeadAttention.forward self x_k x_q x_v (Some m)))
  /\ (forall e,
      broadcast_shapes scores (shape m) = Raise e ->
      MultiHeadAttention.forward self x_k x_q x_v (Some m) = Raise e).
Proof.
  intros Hwf Hd Hb Hxk Hxq Hxv scores.
  split.
  - intros Hfit.
    destruct (forward_shape_wf self x_k x_q x_v (Some m) b lk lq lk _ Hwf eq_refl
                ltac:(lia) Hb Hxk Hxq Hxv) as (_ & Hrun & _).
    destruct (Hrun Hfit eq_refl) as [f Hf].
    eexists. exact Hf.
  - intros e He.
    pose proof Hwf as (_ & _ & _ & _ & Hq & Hkk & Hv & Ho).
    destruct (project_head_projection self _ x_q b lq Hwf Hd Hq Hb Hxq)
      as (Q & HQ & HQs & _).
    destruct (project_head_projection self _ x_k b lk Hwf Hd Hkk Hb Hxk)
      as (K & HK & HKs & _).
    destruct (project_head_projection self _ x_v b lk Hwf Hd Hv Hb Hxv)
      as (V & HV & _).
    rewrite Hxq in HQs. rewrite Hxk in HKs. cbn [nth] in HQs, HKs.
    unfold MultiHeadAttention.forward. rewrite HQ, HK, HV.
    destruct x_q as [sq fq]. cbn [shape] in Hxq. subst sq.
    rewrite size_batch. cbn [bind].
    unfold MultiHeadAttention.scaled_dot_product_attention, MultiHeadAttention.attn_probs.
    rewrite attn_scores_masked.
    destruct (MultiHeadAttention.attn_scores self Q K None) as [t|e'] eqn:Ht.
    + pose proof (attn_scores_unmasked self Q K t _ _ _ _ _ _ HQs HKs Ht) as Hshape.
      cbn [bind]. unfold masked_fill. rewrite Hshape.
      cbn [eq_zero map_tensor shape].
      fold scores. rewrite He. reflexivity.
    + exfalso.
      destruct (forward_shape_wf self x_k (Tensor [b; lq; _] fq) x_v None b lk lq lk _
                  Hwf eq_refl ltac:(lia) Hb Hxk eq_refl Hxv) as (_ & Hrun & _).
      destruct (Hrun I eq_refl) as [f Hf].
      unfold MultiHeadAttention.forward in Hf. rewrite HQ, HK, HV in Hf.
      rewrite size_batch in Hf. cbn [bind] in Hf.
      unfold MultiHeadAttention.scaled_dot_product_attention,
        MultiHeadAttention.attn_probs in Hf.
      rewrite Ht in Hf. discriminate Hf.
Qed.

Lemma MultiHeadAttention_forward_checks_mask_witness :
  returns (MultiHeadAttention.forward small_attention (const_tensor [1; 2; 4] 0)
             (const_tensor [1; 1; 4] 0) (const_tensor [1; 2; 4] 0)
             (Some first_key_masked))
  /\ MultiHeadAttention.forward small_attention (const_tensor [1; 2; 4] 0)
       (const_tensor [1; 1; 4] 0) (const_tensor [1; 2; 4] 0)
       (Some (Tensor [1; 1; 1; 3] (fun _ => 1%Z)))
     = Raise (RuntimeError "broadcast").
Proof.
  split.
  - apply (MultiHeadAttention_forward_checks_mask small_attention
             (const_tensor [1; 2; 4] 0) (const_tensor [1; 1; 4] 0)
             (const_tensor [1; 2; 4] 0) first_key_masked 1 2 1
             small_attention_well_formed eq_refl (Nat.lt_0_succ 0)
             eq_refl eq_refl eq_refl).
    reflexivity.
  - apply (MultiHeadAttention_forward_checks_mask small_attention
             (const_tensor [1; 2; 4] 0) (const_tensor [1; 1; 4] 0)
             (const_tensor [1; 2; 4] 0) (Tensor [1; 1; 1; 3] (fun _ => 1%Z)) 1 2 1
             small_attention_well_formed eq_refl (Nat.lt_0_succ 0)
             eq_refl eq_refl eq_refl).
    reflexivity.
Defined.

(** ** The feed-forward block *)

Lemma linear_forward_ok (l : Linear.t) (x : tensor R) :
  shape x <> [] ->
  last (shape x) 0 = Linear.in_features l ->
  Linear.forward l x
  = Ok (Tensor (removelast (shape x) ++ [Linear.out_features l]) (Linear.forward_item l x)).
Proof.
  intros Hne Hlast. unfold Linear.forward.
  destruct (shape x) as [|d0 rest] eqn:Hs; [contradiction|].
  rewrite Hlast, Nat.eqb_refl. reflexivity.
Qed.

Lemma last_snoc {A : Type} (l : list A) (a d : A) : last (l ++ [a]) d = a.
Proof. apply last_last. Qed.

(** X8.  A feed-forward block accepts exactly the tensors whose last
    dimension is its width, of any rank and any size, an empty batch
    included, in training as in evaluation mode; and the result has the
    shape of the input. *)
Theorem FeedForward_forward_keeps_shape (self : FeedForward.t) (x : tensor R)
  (g : rng) (d d_ff : nat) :
  ffn_well_formed self d d_ff ->
  (returns (FeedForward.forward self x g) <-> shape x <> [] /\ last (shape x) 0 = d)
  /\ forall y g', FeedForward.forward self x g = Ok (y, g') -> shape y = shape x.
Proof.
  intros (Hin1 & Hout1 & Hin2 & Hout2).
  assert (Hrun : shape x <> [] -> last (shape x) 0 = d ->
            exists y g', FeedForward.forward self x g = Ok (y, g') /\ shape y = shape x).
  { intros Hne Hlast. unfold FeedForward.forward.
    rewrite (linear_forward_ok _ x Hne) by congruence. cbn [bind].
    destruct (Dropout.forward _ _ g) as [x1 g'] eqn:Hdrop.
    apply dropout_shape in Hdrop. cbn [relu map_tensor shape] in Hdrop.
    rewrite linear_forward_ok.
    - cbn [bind]. eexists _, _. split; [reflexivity|].
      cbn [shape]. rewrite Hdrop, removelast_last, Hout2, <- Hlast.
      symmetry. apply app_removelast_last. exact Hne.
    - rewrite Hdrop. destruct (removelast (shape x)); discriminate.
    - rewrite Hdrop, last_snoc. congruence. }
  split; [split|].
  - intros [[y g'] H]. unfold FeedForward.forward in H.
    step_in H h Hh. apply linear_forward_width in Hh. rewrite Hin1 in Hh. exact Hh.
  - intros [Hne Hlast]. destruct (Hrun Hne Hlast) as (y & g' & H & _).
    eexists. exact H.
  - intros y g' H.
    assert (Hx : shape x <> [] /\ last (shape x) 0 = d).
    { unfold FeedForward.forward in H.
      step_in H h Hh. apply linear_forward_width in Hh. rewrite Hin1 in Hh. exact Hh. }
    destruct (Hrun (proj1 Hx) (proj2 Hx)) as (y' & g'' & H' & Hshape).
    rewrite H in H'. injection H' as <- <-. exact Hshape.
Qed.

Lemma small_ffn_well_formed : ffn_well_formed small_ffn 4 8.
Proof. repeat split. Qed.

Lemma FeedForward_forward_keeps_shape_witness :
  returns (FeedForward.forward small_ffn (const_tensor [0; 3; 4] 0) no_draws).
Proof.
  apply (proj1 (FeedForward_forward_keeps_shape small_ffn (const_tensor [0; 3; 4] 0)
                  no_draws 4 8 small_ffn_well_formed)).
  split; [discriminate|reflexivity].
Defined.

(** X9.  In evaluation mode [FeedForward.forward] leaves the random draws
    untouched and computes, at every position, [linear2(relu(linear1(v)))]
    of the vector [v] at that position alone: the positions do not
    interact, and a change of the input elsewhere leaves the output at a
    position as it was. *)
Theorem FeedForward_forward_per_position (self : FeedForward.t) (x : tensor R)
  (g : rng) (b len d d_ff : nat) :
  ffn_well_formed self d d_ff ->
  Dropout.training (FeedForward.dropout self) = false ->
  shape x = [b; len; d] ->
  exists y,
    FeedForward.forward self x g = Ok (y, g)
    /\ (forall bi pos j,
          item y [bi; pos; j]
          = (rsum (fun k =>
                     Rmax 0 (rsum (fun i => item x [bi; pos; i]
                                            * Linear.weight (FeedForward.linear1 self) k i) d
                             + Linear.bias (FeedForward.linear1 self) k)
                     * Linear.weight (FeedForward.linear2 self) j k) d_ff
             + Linear.bias (FeedForward.linear2 self) j)%R)
    /\ (forall x' bi pos,
          shape x' = [b; len; d] ->
          (forall i, i < d -> item x' [bi; pos; i] = item x [bi; pos; i]) ->
          exists y',
            FeedForward.forward self x' g = Ok (y', g)
            /\ forall j, item y' [bi; pos; j] = item y [bi; pos; j]).
Proof.
  intros (Hin1 & Hout1 & Hin2 & Hout2) Heval Hx.
  assert (Hrun : forall t, shape t = [b; len; d] ->
            exists y,
              FeedForward.forward self t g = Ok (y, g)
              /\ forall bi pos j,
                  item y [bi; pos; j]
                  = (rsum (fun k =>
                             Rmax 0 (rsum (fun i => item t [bi; pos; i]
                                            * Linear.weight (FeedForward.linear1 self) k i) d
                                     + Linear.bias (FeedForward.linear1 self) k)
                             * Linear.weight (FeedForward.linear2 self) j k) d_ff
                     + Linear.bias (FeedForward.linear2 self) j)%R).
  { intros t Ht. unfold FeedForward.forward, Linear.forward, Dropout.forward.
    rewrite Heval, Ht. cbn [last]. rewrite Hin1, Nat.eqb_refl. cbn [bind].
    cbn [relu map_tensor shape removelast app last].
    rewrite Hout1, Hin2, Nat.eqb_refl. cbn [bind].
    eexists. split; [reflexivity|].
    intros bi pos j. cbn [item]. unfold Linear.forward_item.
    cbn [removelast last app item]. rewrite Hin1, Hin2. reflexivity. }
  destruct (Hrun x Hx) as (y & Hy & Hentry).
  exists y. split; [exact Hy|]. split; [exact Hentry|].
  intros x' bi pos Hx' Hsame.
  destruct (Hrun x' Hx') as (y' & Hy' & Hentry').
  exists y'. split; [exact Hy'|].
  intros j. rewrite Hentry, Hentry'.
  f_equal. apply rsum_ext. intros k _. f_equal. f_equal. f_equal.
  apply rsum_ext. intros i Hi. rewrite (Hsame i Hi). reflexivity.
Qed.

Lemma FeedForward_forward_per_position_witness :
  exists y,
    FeedForward.forward small_ffn (const_tensor [1; 2; 4] 0) no_draws = Ok (y, no_draws).
Proof.
  destruct (FeedForward_forward_per_position small_ffn (const_tensor [1; 2; 4] 0)
              no_draws 1 2 4 8 small_ffn_well_formed eq_refl eq_refl) as (y & Hy & _).
  exists y. exact Hy.
Defined.

(** ** The encoder layer *)

Lemma ffn_forward_shape (self : FeedForward.t) (x : tensor R) (g : rng)
  (b len d d_ff : nat) :
  ffn_well_formed self d d_ff ->
  shape x = [b; len; d] ->
  exists y,
    FeedForward.forward self x g
    = Ok (y, snd (Dropout.forward (FeedForward.dropout self)
                    (relu (Tensor [b; len; d_ff]
                             (Linear.forward_item (FeedForward.linear1 self) x))) g))
    /\ shape y = [b; len; d].
Proof.
  intros (Hin1 & Hout1 & Hin2 & Hout2) Hx.
  unfold FeedForward.forward, Linear.forward.
  rewrite Hx. cbn [last removelast app]. rewrite Hin1, Hout1, Nat.eqb_refl. cbn [bind].
  destruct (Dropout.forward _ _ g) as [x1 g'] eqn:Hdrop.
  apply dropout_shape in Hdrop. cbn [relu map_tensor shape] in Hdrop.
  rewrite Hdrop. cbn [last removelast app]. rewrite Hin2, Hout2, Nat.eqb_refl. cbn [bind].
  eexists. split; reflexivity.
Qed.

(** The outcome of an encoder layer on a hidden state. *)
Lemma encoder_forward_shape (self : EncoderLayer.t) (x : tensor R)
  (mask : option (tensor Z)) (g : rng) (b len d : nat) :
  encoder_well_formed self d ->
  shape x = [b; len; d] ->
  (0 < b ->
   exists y g', EncoderLayer.forward self x mask g = Ok (y, g') /\ shape y = [b; len; d])
  /\ (b = 0 ->
      EncoderLayer.forward self x mask g
      = Raise (RuntimeError "view: unspecified dimension is ambiguous")).
Proof.
  intros (Hd & Hwf & Hdm & (d_ff & Hffn) & Hn1 & Hn2) Hx.
  unfold EncoderLayer.forward, EncoderLayer.getattr.
  cbn [String.eqb Ascii.eqb Bool.eqb bind as_attention as_dropout as_norm as_ffn].
  split.
  - intros Hb.
    destruct (forward_shape_wf _ x x x None b len len len d Hwf Hdm Hd Hb Hx Hx Hx)
      as (_ & Hrun & _).
    destruct (Hrun I eq_refl) as [fa ->]. cbn [bind].
    destruct (Dropout.forward (EncoderLayer.dropout self) (Tensor [b; len; d] fa) g)
      as [dropped g1] eqn:Hdrop.
    apply dropout_shape in Hdrop. cbn [shape] in Hdrop.
    rewrite (add_same_shape x dropped [b; len; d] Hx Hdrop). cbn [bind].
    erewrite layer_norm_shape; [|reflexivity|exact Hn1]. cbn [bind].
    destruct (ffn_forward_shape (EncoderLayer.ffn self)
                (Tensor [b; len; d] (LayerNorm.forward_item (EncoderLayer.norm1 self)
                                       (Tensor [b; len; d] (zip_item Rplus x dropped))))
                g1 b len d d_ff Hffn eq_refl) as (y & -> & Hy).
    cbn [bind].
    destruct (Dropout.forward (EncoderLayer.dropout self) y _) as [dropped2 g3] eqn:Hdrop2.
    apply dropout_shape in Hdrop2. rewrite Hy in Hdrop2.
    erewrite add_same_shape; [|reflexivity|exact Hdrop2]. cbn [bind].
    erewrite layer_norm_shape; [|reflexivity|exact Hn2]. cbn [bind].
    eexists _, _. split; reflexivity.
  - intros ->.
    rewrite <- Hdm in Hx.
    rewrite (forward_empty_batch_wf _ x x x None len Hwf Hx). reflexivity.
Qed.

(** X10.  An encoder layer maps a hidden state of shape [(b, len, d)] with
    [b >= 1] to a hidden state of the same shape, whatever the mask
    argument and the state of the dropout, so that its output is a valid
    input of a next layer of the same width; on an empty batch it raises. *)
Theorem EncoderLayer_forward_keeps_shape (self next : EncoderLayer.t) (x : tensor R)
  (mask mask' : option (tensor Z)) (g : rng) (b len d : nat) :
  encoder_well_formed self d ->
  encoder_well_formed next d ->
  shape x = [b; len; d] ->
  (0 < b ->
   exists y g',
     EncoderLayer.forward self x mask g = Ok (y, g')
     /\ shape y = [b; len; d]
     /\ exists z g'',
          EncoderLayer.forward next y mask' g' = Ok (z, g'') /\ shape z = [b; len; d])
  /\ (b = 0 ->
      EncoderLayer.forward self x mask g
      = Raise (RuntimeError "view: unspecified dimension is ambiguous")).
Proof.
  intros Hself Hnext Hx.
  destruct (encoder_forward_shape self x mask g b len d Hself Hx) as [Hrun Hempty].
  split; [|exact Hempty].
  intros Hb. destruct (Hrun Hb) as (y & g' & Hy & Hshape).
  exists y, g'. split; [exact Hy|]. split; [exact Hshape|].
  destruct (encoder_forward_shape next y mask' g' b len d Hnext Hshape) as [Hrun' _].
  exact (Hrun' Hb).
Qed.

Lemma small_encoder_well_formed : encoder_well_formed small_encoder 4.
Proof.
  refine (conj (Nat.lt_0_succ 3)
           (conj small_attention_well_formed
              (conj eq_refl
                 (conj (ex_intro _ 8 small_ffn_well_formed) (conj eq_refl eq_refl))))).
Qed.

Lemma EncoderLayer_forward_keeps_shape_witness :
  exists y g',
    EncoderLayer.forward small_encoder (const_tensor [2; 3; 4] 0) None no_draws
      = Ok (y, g')
    /\ shape y = [2; 3; 4].
Proof.
  destruct (EncoderLayer_forward_keeps_shape small_encoder small_encoder
              (const_tensor [2; 3; 4] 0) None None no_draws 2 3 4
              small_encoder_well_formed small_encoder_well_formed eq_refl)
    as [Hrun _].
  destruct (Hrun (Nat.lt_0_succ 1)) as (y & g' & Hy & Hshape & _).
  exists y, g'. split; assumption.
Defined.

(** X11.  In evaluation mode (the layer's dropout and its feed-forward
    block's dropout both switched off) an encoder layer neither reads nor
    consumes randomness: its outcome is the same for every stream of draws,
    and the stream is handed back as it came. *)
Theorem EncoderLayer_forward_eval_mode (self : EncoderLayer.t) (x : tensor R)
  (mask : option (tensor Z)) (g g0 : rng) :
  Dropout.training (EncoderLayer.dropout self) = false ->
  Dropout.training (FeedForward.dropout (EncoderLayer.ffn self)) = false ->
  EncoderLayer.forward self x mask g
  = match EncoderLayer.forward self x mask g0 with
    | Ok (y, _) => Ok (y, g)
    | Raise e => Raise e
    end.
Proof.
  intros Hlayer Hffn.
  unfold EncoderLayer.forward, EncoderLayer.getattr.
  cbn [String.eqb Ascii.eqb Bool.eqb bind as_attention as_dropout as_norm as_ffn].
  destruct (MultiHeadAttention.forward _ x x x None) as [a|e]; [|reflexivity].
  cbn [bind]. unfold Dropout.forward at 1 3. rewrite Hlayer.
  destruct (add x a) as [res1|e]; [|reflexivity]. cbn [bind].
  destruct (LayerNorm.forward _ res1) as [n1|e]; [|reflexivity]. cbn [bind].
  unfold FeedForward.forward.
  destruct (Linear.forward _ n1) as [hid|e]; [|reflexivity]. cbn [bind].
  unfold Dropout.forward at 1 3. rewrite Hffn.
  destruct (Linear.forward _ (relu hid)) as [f|e]; [|reflexivity]. cbn [bind].
  unfold Dropout.forward. rewrite Hlayer.
  destruct (add n1 f) as [res2|e]; [|reflexivity]. cbn [bind].
  destruct (LayerNorm.forward _ res2) as [out|e]; reflexivity.
Qed.

Lemma EncoderLayer_forward_eval_mode_witness :
  EncoderLayer.forward small_encoder (const_tensor [2; 3; 4] 0) None (fun _ => 1%R)
  = match EncoderLayer.forward small_encoder (const_tensor [2; 3; 4] 0) None no_draws with
    | Ok (y, _) => Ok (y, fun _ => 1%R)
    | Raise e => Raise e
    end.
Proof.
  exact (EncoderLayer_forward_eval_mode small_encoder (const_tensor [2; 3; 4] 0) None
           (fun _ => 1%R) no_draws eq_refl eq_refl).
Defined.

(** ** Positional encoding: construction and use *)

Lemma half_up (d : Z) :
  (0 <= d)%Z -> Z.to_nat ((d + 2 - 1) / 2) = (Z.to_nat d - 0 + 1) / 2.
Proof.
  intros Hd. rewrite Nat.sub_0_r.
  apply Nat2Z.inj. rewrite Nat2Z.inj_div, Z2Nat.id by (apply Z.div_pos; lia).
  rewrite Nat2Z.inj_add, Z2Nat.id by lia.
  f_equal. lia.
Qed.

Lemma assign_cols_matching (t v : tensor R) (start rows cols : nat) :
  shape t = [rows; cols] ->
  shape v = [rows; (cols - start + 1) / 2] ->
  assign_cols t start v = Ok (Tensor [rows; cols] (assign_cols_item t v start)).
Proof.
  intros Ht Hv. unfold assign_cols. rewrite Ht, Hv, broadcast_same. cbn [bind].
  destruct (list_eq_dec Nat.eq_dec _ _); [reflexivity|congruence].
Qed.

Lemma assign_cols_one_more (t v : tensor R) (rows cols q : nat) :
  shape t = [rows; cols] ->
  (cols - 1 + 1) / 2 = q ->
  0 < q ->
  shape v = [rows; S q] ->
  exists msg, assign_cols t 1 v = Raise (RuntimeError msg).
Proof.
  intros Ht Hq Hpos Hv. unfold assign_cols. rewrite Ht, Hv, Hq.
  unfold broadcast_shapes. cbn [rev app broadcast_rev bind].
  rewrite Nat.eqb_refl.
  replace (q =? S q) with false by (symmetry; apply Nat.eqb_neq; lia).
  cbn [Nat.eqb].
  destruct (Nat.eqb_spec q 1) as [->|Hq1].
  - cbn [bind rev app].
    destruct (list_eq_dec Nat.eq_dec [rows; 2] [rows; 1]); [discriminate|].
    eexists. reflexivity.
  - destruct q as [|[|q']]; try lia. cbn [bind]. eexists. reflexivity.
Qed.

(** A valid dropout probability, a table of [max_len >= 0] rows and an even
    positive [d_model]: the constructor builds the instance. *)
Lemma positional_init_even (d_model : Z) (p : R) (max_len : Z) :
  (0 <= p <= 1)%R -> (0 <= max_len)%Z -> (0 < d_model)%Z -> Z.even d_model = true ->
  returns (PositionalEncoding.__init__ d_model p max_len).
Proof.
  intros Hp Hlen Hd Heven.
  unfold PositionalEncoding.__init__.
  rewrite (dropout_init_ok p Hp). cbn [bind].
  assert (Hsteps : arange max_len 1
            = Ok (Tensor [Z.to_nat ((max_len + 1 - 1) / 1)]
                    (fun idx => IZR (Z.of_nat (hd 0 idx) * 1)))).
  { unfold arange.
    replace (max_len <? 0)%Z with false by (symmetry; apply Z.ltb_ge; lia).
    reflexivity. }
  replace ((max_len + 1 - 1) / 1)%Z with max_len in Hsteps by (rewrite Z.div_1_r; lia).
  assert (Hevens : (0 <= d_model)%Z ->
            arange d_model 2
            = Ok (Tensor [Z.to_nat ((d_model + 2 - 1) / 2)]
                    (fun idx => IZR (Z.of_nat (hd 0 idx) * 2)))).
  { intros Hnn. unfold arange.
    replace (d_model <? 0)%Z with false by (symmetry; apply Z.ltb_ge; lia).
    reflexivity. }
  assert (Hzeros : (0 <= d_model)%Z ->
            zeros [max_len; d_model]
            = Ok (Tensor [Z.to_nat max_len; Z.to_nat d_model] (fun _ => 0%R))).
  { intros Hnn. unfold zeros. cbn [existsb].
    replace (max_len <? 0)%Z with false by (symmetry; apply Z.ltb_ge; lia).
    replace (d_model <? 0)%Z with false by (symmetry; apply Z.ltb_ge; lia).
    reflexivity. }
  rewrite Hzeros, Hsteps, Hevens by lia. cbn [bind unsqueeze shape length Nat.leb].
  replace (d_model =? 0)%Z with false by (symmetry; apply Z.eqb_neq; lia).
  cbn [bind]. unfold mul, zip_with.
  cbn [shape insert_at map_tensor]. rewrite broadcast_outer. cbn [bind].
  rewrite half_up by lia.
  erewrite assign_cols_matching; [|reflexivity|reflexivity]. cbn [bind].
  erewrite assign_cols_matching; [|reflexivity|].
  - cbn [bind length shape Nat.leb]. eexists. reflexivity.
  - cbn [shape]. do 2 f_equal.
    apply Z.even_spec in Heven. destruct Heven as [q ->].
    rewrite Z2Nat.inj_mul by lia.
    change (Z.to_nat 2) with 2.
    assert (0 < Z.to_nat q) by lia.
    rewrite Nat.sub_0_r.
    replace (2 * Z.to_nat q - 1 + 1) with (Z.to_nat q * 2) by lia.
    replace (2 * Z.to_nat q + 1) with (1 + Z.to_nat q * 2) by lia.
    rewrite Nat.div_mul, Nat.div_add by discriminate. reflexivity.
Qed.

(** X12.  The outcome of [PositionalEncoding.__init__], by its arguments: a
    dropout probability outside [0, 1] is refused with [ValueError]; with a
    valid probability and [max_len >= 0], an even positive [d_model] builds
    the instance, [d_model = 0] divides by zero, and an odd [d_model >= 3]
    fails when the cosines, one column more than there are odd columns, are
    stored into the table. *)
Theorem PositionalEncoding_init_outcome (d_model : Z) (p : R) (max_len : Z) :
  ((p < 0 \/ 1 < p)%R -> PositionalEncoding.__init__ d_model p max_len = Raise ValueError)
  /\ ((0 <= p <= 1)%R -> (0 <= max_len)%Z ->
      ((0 < d_model)%Z -> Z.even d_model = true ->
       returns (PositionalEncoding.__init__ d_model p max_len))
      /\ (d_model = 0%Z ->
          PositionalEncoding.__init__ d_model p max_len = Raise ZeroDivisionError)
      /\ ((3 <= d_model)%Z -> Z.odd d_model = true ->
          exists msg,
            PositionalEncoding.__init__ d_model p max_len = Raise (RuntimeError msg))).
Proof.
  split.
  - intros Hp. unfold PositionalEncoding.__init__, Dropout.__init__.
    destruct (Rlt_dec p 0); [reflexivity|].
    destruct (Rlt_dec 1 p); [reflexivity|lra].
  - intros Hp Hlen.
    split; [intros Hd Heven; apply positional_init_even; assumption|].
    unfold PositionalEncoding.__init__.
    rewrite (dropout_init_ok p Hp). cbn [bind].
    assert (Hsteps : arange max_len 1
              = Ok (Tensor [Z.to_nat ((max_len + 1 - 1) / 1)]
                      (fun idx => IZR (Z.of_nat (hd 0 idx) * 1)))).
    { unfold arange.
      replace (max_len <? 0)%Z with false by (symmetry; apply Z.ltb_ge; lia).
      reflexivity. }
    replace ((max_len + 1 - 1) / 1)%Z with max_len in Hsteps by (rewrite Z.div_1_r; lia).
    assert (Hevens : (0 <= d_model)%Z ->
              arange d_model 2
              = Ok (Tensor [Z.to_nat ((d_model + 2 - 1) / 2)]
                      (fun idx => IZR (Z.of_nat (hd 0 idx) * 2)))).
    { intros Hd. unfold arange.
      replace (d_model <? 0)%Z with false by (symmetry; apply Z.ltb_ge; lia).
      reflexivity. }
    assert (Hzeros : (0 <= d_model)%Z ->
              zeros [max_len; d_model]
              = Ok (Tensor [Z.to_nat max_len; Z.to_nat d_model] (fun _ => 0%R))).
    { intros Hd. unfold zeros. cbn [existsb].
      replace (max_len <? 0)%Z with false by (symmetry; apply Z.ltb_ge; lia).
      replace (d_model <? 0)%Z with false by (symmetry; apply Z.ltb_ge; lia).
      reflexivity. }
    split.
    + intros ->. rewrite Hzeros, Hsteps, Hevens by lia. reflexivity.
    + intros Hd Hodd.
      rewrite Hzeros, Hsteps, Hevens by lia. cbn [bind unsqueeze shape length Nat.leb].
      replace (d_model =? 0)%Z with false by (symmetry; apply Z.eqb_neq; lia).
      cbn [bind]. unfold mul, zip_with.
      cbn [shape insert_at map_tensor]. rewrite broadcast_outer. cbn [bind].
      rewrite half_up by lia.
      erewrite assign_cols_matching; [|reflexivity|reflexivity]. cbn [bind].
      apply Z.odd_spec in Hodd. destruct Hodd as [q ->].
      assert (Hq : 0 < Z.to_nat q) by lia.
      assert (Hcols : Z.to_nat (2 * q + 1) = 1 + Z.to_nat q * 2) by lia.
      match goal with
      | |- exists msg, bind (assign_cols ?t 1 ?v) _ = _ =>
          destruct (assign_cols_one_more t v (Z.to_nat max_len) (Z.to_nat (2 * q + 1))
                      (Z.to_nat q)) as [msg Hmsg]
      end.
      * reflexivity.
      * rewrite Hcols. replace (1 + Z.to_nat q * 2 - 1 + 1) with (1 + Z.to_nat q * 2) by lia.
        rewrite Nat.div_add by discriminate. reflexivity.
      * exact Hq.
      * cbn [shape map_tensor]. do 2 f_equal.
        rewrite Hcols, Nat.sub_0_r.
        replace (1 + Z.to_nat q * 2 + 1) with (2 + Z.to_nat q * 2) by lia.
        rewrite Nat.div_add by discriminate. reflexivity.
      * exists msg. rewrite Hmsg. reflexivity.
Qed.

Lemma PositionalEncoding_init_outcome_witness :
  PositionalEncoding.__init__ 4 2 2 = Raise ValueError
  /\ returns (PositionalEncoding.__init__ 4 (1 / 10) 2)
  /\ PositionalEncoding.__init__ 0 (1 / 10) 2 = Raise ZeroDivisionError
  /\ exists msg, PositionalEncoding.__init__ 3 (1 / 10) 2 = Raise (RuntimeError msg).
Proof.
  split.
  - apply (proj1 (PositionalEncoding_init_outcome 4 2 2)). right. lra.
  - assert (Hp : (0 <= 1 / 10 <= 1)%R) by lra.
    assert (Hlen : (0 <= 2)%Z) by lia.
    split; [|split].
    + apply (proj1 (proj2 (PositionalEncoding_init_outcome 4 (1 / 10) 2) Hp Hlen));
        [lia|reflexivity].
    + apply (proj1 (proj2 (proj2 (PositionalEncoding_init_outcome 0 (1 / 10) 2) Hp Hlen))).
      reflexivity.
    + apply (proj2 (proj2 (proj2 (PositionalEncoding_init_outcome 3 (1 / 10) 2) Hp Hlen)));
        [lia|reflexivity].
Defined.

(** The sum that [PositionalEncoding.forward] hands to its dropout. *)
Lemma positional_sum (pe x : tensor R) (b len rows d : nat) :
  shape pe = [1; rows; d] ->
  shape x = [b; len; d] ->
  len <= rows ->
  exists y,
    (n <- size x 1 ;; sl <- slice_dim1 pe n ;; add x (detach sl)) = Ok y
    /\ shape y = [b; len; d]
    /\ forall i j k,
        i < b -> j < len -> k < d ->
        item y [i; j; k] = (item x [i; j; k] + item pe [0%nat; j; k])%R.
Proof.
  intros Hpe Hx Hle.
  destruct pe as [spe fpe]. cbn [shape] in Hpe. subst spe.
  destruct x as [sx fx]. cbn [shape] in Hx. subst sx.
  change (size (Tensor [b; len; d] fx) 1) with (Ok (A := nat) len).
  cbn [bind slice_dim1 shape item].
  unfold add, zip_with, detach. cbn [shape].
  rewrite Nat.min_l by exact Hle.
  rewrite broadcast_batch. cbn [bind].
  eexists. split; [reflexivity|]. split; [reflexivity|].
  intros i j k Hi Hj Hk.
  cbn [item]. unfold zip_item, bcast.
  cbn [shape item length Nat.sub skipn].
  rewrite clamp_in_range_3 by assumption.
  cbn [clamp Nat.eqb].
  destruct (Nat.eqb_spec len 1); destruct (Nat.eqb_spec d 1);
    repeat f_equal; lia.
Qed.

(** X14.  Once switched to evaluation mode, an instance built by the
    constructor consumes no random draw: on a hidden state of at most
    [max_len] positions [forward] returns, with the stream of draws as it
    came, a tensor of the shape of the input that holds the sum of the input
    and the table row of each position. *)
Theorem PositionalEncoding_forward_eval_mode (d_model : Z) (p : R) (max_len : Z)
  (built : PositionalEncoding.t) (x : tensor R) (g : rng) (b len : nat) :
  PositionalEncoding.__init__ d_model p max_len = Ok built ->
  shape x = [b; len; Z.to_nat d_model] ->
  len <= Z.to_nat max_len ->
  let self := PositionalEncoding.mk (Dropout.mk p false) (PositionalEncoding.pe built) in
  exists y,
    PositionalEncoding.forward self x g = Ok (y, g)
    /\ shape y = shape x
    /\ forall i j k,
        i < b -> j < len -> k < Z.to_nat d_model ->
        item y [i; j; k]
        = (item x [i; j; k] + item (PositionalEncoding.pe built) [0%nat; j; k])%R.
Proof.
  intros Hinit Hx Hle self.
  destruct (init_table d_model p max_len built Hinit) as (_ & Hpe & _ & _).
  destruct (positional_sum (PositionalEncoding.pe built) x b len _ _ Hpe Hx Hle)
    as (y & Hy & Hshape & Hsum).
  unfold PositionalEncoding.forward.
  cbn [PositionalEncoding.pe PositionalEncoding.dropout self].
  exists y. split; [|split; [congruence|exact Hsum]].
  destruct (size x 1) as [n|e]; [|discriminate Hy]. cbn [bind] in Hy |- *.
  destruct (slice_dim1 _ n) as [sl|e]; [|discriminate Hy]. cbn [bind] in Hy |- *.
  rewrite Hy. reflexivity.
Qed.

Lemma PositionalEncoding_forward_eval_mode_witness :
  exists built y,
    PositionalEncoding.__init__ 4 (1 / 10) 2 = Ok built
    /\ PositionalEncoding.forward
         (PositionalEncoding.mk (Dropout.mk (1 / 10) false) (PositionalEncoding.pe built))
         (const_tensor [1; 2; 4] 0) no_draws = Ok (y, no_draws).
Proof.
  assert (Hinit : returns (PositionalEncoding.__init__ 4 (1 / 10) 2)).
  { unfold PositionalEncoding.__init__.
    rewrite dropout_init_ok by lra.
    eexists. reflexivity. }
  destruct Hinit as [built Hinit].
  destruct (PositionalEncoding_forward_eval_mode 4 (1 / 10) 2 built
              (const_tensor [1; 2; 4] 0) no_draws 1 2 Hinit eq_refl (le_n 2))
    as (y & Hy & _).
  exists built, y. split; assumption.
Defined.

(** ** The model *)

Lemma comprehension_first_raises {A : Type} (make : nat -> result A) (i n : nat) (e : exn) :
  make i = Raise e -> 0 < n -> comprehension make i n = Raise e.
Proof.
  intros Hmake Hn. destruct n as [|n]; [lia|].
  cbn [comprehension]. rewrite Hmake. reflexivity.
Qed.

(** X15.  [Transformer.__init__] builds its layer lists by calling the layer
    constructors, which cannot return: with at least one layer (the default
    is six) no model is ever built, and for arguments that pass the
    embeddings and the positional encoding the exception is the one of the
    first encoder layer's attention, [NameError] on [head_dim]
    ([ZeroDivisionError] for zero heads).  Only with [num_layers <= 0] does the
    constructor return, and then with no layer at all. *)
Theorem Transformer_init_outcome
  (source_vocab_size target_vocab_size d_model num_heads num_layers : Z)
  (init : initializer) (enc_init dec_init : nat -> initializer) :
  let built := Transformer.__init__ source_vocab_size target_vocab_size d_model
                 num_heads num_layers init enc_init dec_init in
  ((1 <= num_layers)%Z -> ~ returns built)
  /\ ((0 <= source_vocab_size)%Z -> (0 <= target_vocab_size)%Z ->
      (0 < d_model)%Z -> Z.even d_model = true ->
      ((1 <= num_layers)%Z ->
       built = Raise (if (num_heads =? 0)%Z then ZeroDivisionError
                      else NameError "head_dim"))
      /\ ((num_layers <= 0)%Z ->
          exists model,
            built = Ok model
            /\ Transformer.encoder_layers model = []
            /\ Transformer.decoder_layers model = []
            /\ Embedding.num_embeddings (Transformer.encoder_embedding model)
               = Z.to_nat source_vocab_size
            /\ Embedding.num_embeddings (Transformer.decoder_embedding model)
               = Z.to_nat target_vocab_size)).
Proof.
  intros built. subst built. unfold Transformer.__init__.
  assert (Hfirst : forall n, 0 < n ->
            comprehension (fun i => EncoderLayer.__init__ d_model num_heads (enc_init i)) 0 n
            = Raise (if (num_heads =? 0)%Z then ZeroDivisionError
                     else NameError "head_dim")).
  { intros n Hn. apply comprehension_first_raises; [|exact Hn].
    unfold EncoderLayer.__init__. rewrite attention_init_outcome.
    destruct (num_heads =? 0)%Z; reflexivity. }
  split.
  - intros Hlayers [model Hmodel].
    destruct (Embedding.__init__ source_vocab_size _ _); [|discriminate Hmodel].
    destruct (Embedding.__init__ target_vocab_size _ _); [|discriminate Hmodel].
    destruct (PositionalEncoding.__init__ _ _ _); [|discriminate Hmodel].
    cbn [bind] in Hmodel. rewrite Hfirst in Hmodel by lia.
    destruct (num_heads =? 0)%Z; discriminate Hmodel.
  - intros Hsource Htarget Hd Heven.
    destruct (positional_init_even d_model (1 / 10) PositionalEncoding.default_max_len)
      as [pe Hpe]; [lra|unfold PositionalEncoding.default_max_len; lia|exact Hd|exact Heven|].
    unfold Embedding.__init__.
    replace (source_vocab_size <? 0)%Z with false by (symmetry; apply Z.ltb_ge; lia).
    replace (target_vocab_size <? 0)%Z with false by (symmetry; apply Z.ltb_ge; lia).
    replace (d_model <? 0)%Z with false by (symmetry; apply Z.ltb_ge; lia).
    cbn [orb bind]. rewrite Hpe. cbn [bind].
    split.
    + intros Hlayers. rewrite Hfirst by lia. reflexivity.
    + intros Hlayers.
      replace (Z.to_nat num_layers) with 0 by lia.
      cbn [comprehension bind].
      eexists. split; [reflexivity|]. repeat split.
Qed.

Lemma Transformer_init_outcome_witness :
  Transformer.__init__ 100 100 Transformer.default_d_model Transformer.default_num_heads
    Transformer.default_num_layers
    (fun _ => (fun _ _ => 0%R, fun _ => 0%R))
    (fun _ _ => (fun _ _ => 0%R, fun _ => 0%R))
    (fun _ _ => (fun _ _ => 0%R, fun _ => 0%R))
  = Raise (NameError "head_dim").
Proof.
  refine (proj1 (proj2 (Transformer_init_outcome 100 100 Transformer.default_d_model
                          Transformer.default_num_heads Transformer.default_num_layers
                          _ _ _) _ _ _ _) _);
    unfold Transformer.default_d_model, Transformer.default_num_layers;
    try lia; reflexivity.
Defined.

(** ** The decoder layer on well-shaped inputs *)

(** X16.  On a decoder layer in the state its constructor is written to set
    up, a target and an encoder output of one shape [(b, len, d)] with
    [b >= 1] and masks that fit the scores get through both attention
    sublayers and the feed-forward network: the call fails exactly at the
    read of [self.Dropout], with [AttributeError], whatever the state of the
    dropout. *)
Theorem DecoderLayer_forward_fails_at_Dropout (self : DecoderLayer.t)
  (x encoder_output : tensor R) (self_mask cross_mask : option (tensor Z)) (g : rng)
  (b len d d_ff : nat) :
  decoder_well_formed self d ->
  ffn_well_formed (DecoderLayer.ffn self) d d_ff ->
  0 < b ->
  shape x = [b; len; d] ->
  shape encoder_output = [b; len; d] ->
  mask_fits self_mask
    [b; Z.to_nat (MultiHeadAttention.num_heads (DecoderLayer.self_attn self)); len; len] ->
  mask_fits cross_mask
    [b; Z.to_nat (MultiHeadAttention.num_heads (DecoderLayer.cross_attn self)); len; len] ->
  DecoderLayer.forward self x encoder_output self_mask cross_mask g
  = Raise (AttributeError "Dropout").
Proof.
  intros (Hd & Hwf1 & Hdm1 & Hwf2 & Hdm2 & Hn1 & Hn2) Hffn Hb Hx He Hm1 Hm2.
  unfold DecoderLayer.forward, DecoderLayer.attention_sublayers, DecoderLayer.getattr.
  cbn [String.eqb Ascii.eqb Bool.eqb bind as_attention as_dropout as_norm as_ffn].
  destruct (forward_shape_wf _ x x x self_mask b len len len d Hwf1 Hdm1 Hd Hb Hx Hx Hx)
    as (_ & Hrun1 & _).
  destruct (Hrun1 Hm1 eq_refl) as [fa ->]. cbn [bind].
  destruct (Dropout.forward (DecoderLayer.dropout self) (Tensor [b; len; d] fa) g)
    as [dropped g1] eqn:Hdrop.
  apply dropout_shape in Hdrop. cbn [shape] in Hdrop.
  rewrite (add_same_shape x dropped [b; len; d] Hx Hdrop). cbn [bind].
  erewrite layer_norm_shape; [|reflexivity|exact Hn1]. cbn [bind].
  match goal with
  | |- context [MultiHeadAttention.forward _ ?n1 encoder_output encoder_output cross_mask] =>
      destruct (forward_shape_wf (DecoderLayer.cross_attn self) n1 encoder_output
                  encoder_output cross_mask b len len len d Hwf2 Hdm2 Hd Hb eq_refl He He)
        as (_ & Hrun2 & _)
  end.
  destruct (Hrun2 Hm2 eq_refl) as [fc ->]. cbn [bind].
  destruct (Dropout.forward (DecoderLayer.dropout self) (Tensor [b; len; d] fc) g1)
    as [dropped2 g2] eqn:Hdrop2.
  apply dropout_shape in Hdrop2. cbn [shape] in Hdrop2.
  erewrite add_same_shape; [|reflexivity|exact Hdrop2]. cbn [bind].
  erewrite layer_norm_shape; [|reflexivity|exact Hn2]. cbn [bind].
  match goal with
  | |- context [FeedForward.forward _ ?n2 g2] =>
      destruct (ffn_forward_shape (DecoderLayer.ffn self) n2 g2 b len d d_ff Hffn eq_refl)
        as (y & -> & _)
  end.
  reflexivity.
Qed.

Lemma DecoderLayer_forward_fails_at_Dropout_witness :
  DecoderLayer.forward small_decoder (const_tensor [2; 3; 4] 0) (const_tensor [2; 3; 4] 0)
    None None no_draws
  = Raise (AttributeError "Dropout").
Proof.
  apply (DecoderLayer_forward_fails_at_Dropout small_decoder _ _ None None no_draws
           2 3 4 8 small_decoder_well_formed).
  - exact small_ffn_well_formed.
  - apply Nat.lt_0_succ.
  - reflexivity.
  - reflexivity.
  - exact I.
  - exact I.
Defined.
